(** * Tempo EDF tray application: refresh, cache and scheduling engine

    A shallow embedding of [main.go] and the properties of its
    refresh / cache / scheduling core.

    Conventions of the embedding.
    - Go [string] is [string]; [[]byte] is [list byte]; Go [int] is [Z];
      [float64] is the binary64 type [float].
    - [time.Time] is an instant (nanoseconds since the Unix epoch, in [Z])
      together with the fixed UTC offset of its location; [time.Duration]
      is a count of nanoseconds.
    - The two package-level maps and structs ([cache], [currentData]) and
      the list of requests sent over the wire form the [World] that every
      operation threads explicitly.
    - What the outside world answers (clock readings, HTTP replies, files)
      is an explicit argument of the operation that asks for it.
    - [encoding/json] is a parameter: a decoder from bytes to the target
      type that may fail.  Logging is not modelled. *)

From Stdlib Require Import ZArith List String Ascii Strings.Byte Bool Lia PrimFloat.
From stdpp Require Import base option gmap strings.

Open Scope string_scope.
Open Scope Z_scope.

(** ** Go's [time] package, as far as [main.go] uses it *)

Module GoTime.

(** [time.Duration]: nanoseconds. *)
Definition Duration := Z.

Definition Nanosecond : Duration := 1.
Definition Second : Duration := 1000000000.
Definition Minute : Duration := 60 * Second.
Definition Hour : Duration := 60 * Minute.

Definition minDuration : Duration := - 2 ^ 63.
Definition maxDuration : Duration := 2 ^ 63 - 1.

(** [time.Time]: the instant and the location it is displayed in.  The
    location is a fixed offset, in seconds east of UTC. *)
Record Time := mkTime { instant : Z; zoneOffset : Z }.

(** [t.Before(u)] compares instants only. *)
Definition Before (t u : Time) : bool := instant t <? instant u.

(** [t.Add(d)] keeps the location. *)
Definition Add (t : Time) (d : Duration) : Time :=
  mkTime (instant t + d) (zoneOffset t).

(** [t.Sub(u)]: the difference of the instants, saturated to the range
    of [Duration]. *)
Definition Sub (t u : Time) : Duration :=
  let d := instant t - instant u in
  if d <? minDuration then minDuration
  else if maxDuration <? d then maxDuration
  else d.

Definition secondsPerDay : Z := 86400.

(** Seconds since the epoch, rounded towards minus infinity, shifted to
    the local wall clock. *)
Definition localSeconds (t : Time) : Z := instant t / Second + zoneOffset t.

(** Day number of the local date (day 0 is 1970-01-01). *)
Definition localDay (t : Time) : Z := localSeconds t / secondsPerDay.

(** The proleptic Gregorian calendar, on the year that starts in March
    (so that the leap day comes last).  [era] counts 400-year cycles of
    146097 days, starting on 0000-03-01. *)
Definition daysToMarchEpoch : Z := 719468.

(** Day of the shifted year for the first day of shifted month [mp]
    (0 = March, ..., 11 = February). *)
Definition dayOfShiftedMonth (mp : Z) : Z := (153 * mp + 2) / 5.

(** Civil date of a day number: [(year, month, day)]. *)
Definition civilFromDays (n : Z) : Z * Z * Z :=
  let z := n + daysToMarchEpoch in
  let era := z / 146097 in
  let doe := z mod 146097 in
  let yoe := (doe - doe / 1460 + doe / 36524 - doe / 146096) / 365 in
  let doy := doe - (365 * yoe + yoe / 4 - yoe / 100) in
  let mp := (5 * doy + 2) / 153 in
  let d := doy - dayOfShiftedMonth mp + 1 in
  let m := if mp <? 10 then mp + 3 else mp - 9 in
  let y := yoe + era * 400 + (if m <=? 2 then 1 else 0) in
  (y, m, d).

(** Day number of a civil date with [1 <= m <= 12]; the day may lie
    outside the month, and then counts on into the neighbouring months
    (October 32 is November 1). *)
Definition daysFromCivil (y m d : Z) : Z :=
  let y' := if m <=? 2 then y - 1 else y in
  let era := y' / 400 in
  let yoe := y' mod 400 in
  let mp := if 2 <? m then m - 3 else m + 9 in
  let doy := dayOfShiftedMonth mp + (d - 1) in
  let doe := yoe * 365 + yoe / 4 - yoe / 100 + doy in
  era * 146097 + doe - daysToMarchEpoch.

Definition Year (t : Time) : Z := fst (fst (civilFromDays (localDay t))).
Definition Month (t : Time) : Z := snd (fst (civilFromDays (localDay t))).
Definition Day (t : Time) : Z := snd (civilFromDays (localDay t)).

(** [norm(hi, lo, base)]: carries the overflow of [lo] into [hi]. *)
Definition norm (hi lo base : Z) : Z * Z := (hi + lo / base, lo mod base).

(** [time.Date(year, month, day, hour, min, sec, nsec, loc)].  Every
    field may overflow its usual range and is normalised into the next
    one, the day last, through the day count. *)
Definition Date (year month day hour min sec nsec zone : Z) : Time :=
  let '(year, m) := norm year (month - 1) 12 in
  let month := m + 1 in
  let '(sec, nsec) := norm sec nsec Second in
  let '(min, sec) := norm min sec 60 in
  let '(hour, min) := norm hour min 60 in
  let '(day, hour) := norm day hour 24 in
  let days := daysFromCivil year month day in
  let wall := days * secondsPerDay + hour * 3600 + min * 60 + sec in
  mkTime ((wall - zone) * Second + nsec) zone.

End GoTime.

Import GoTime.

(** ** Go's [strings] package on ASCII text

    [currentData.TodayColor] only ever holds one of the ASCII literals of
    [main.go]; on ASCII text [strings.ToLower] maps [A-Z] to [a-z] and
    [strings.TrimSpace] removes leading and trailing tab, line feed,
    vertical tab, form feed, carriage return and space. *)

Module GoStrings.

Definition isUpper (c : ascii) : bool :=
  let n := N_of_ascii c in ((65 <=? n) && (n <=? 90))%N.

Definition isLower (c : ascii) : bool :=
  let n := N_of_ascii c in ((97 <=? n) && (n <=? 122))%N.

Definition lowerChar (c : ascii) : ascii :=
  if isUpper c then ascii_of_N (N_of_ascii c + 32) else c.

Definition upperChar (c : ascii) : ascii :=
  if isLower c then ascii_of_N (N_of_ascii c - 32) else c.

Fixpoint ToLower (s : string) : string :=
  match s with
  | EmptyString => EmptyString
  | String c s => String (lowerChar c) (ToLower s)
  end.

Definition isSpace (c : ascii) : bool :=
  let n := N_of_ascii c in ((9 <=? n) && (n <=? 13) || (n =? 32))%N.

Fixpoint trimLeft (s : string) : string :=
  match s with
  | String c s' => if isSpace c then trimLeft s' else s
  | EmptyString => EmptyString
  end.

(** Drops the trailing white space: a character is kept when it is not
    a space or when something is kept after it. *)
Fixpoint trimRight (s : string) : string :=
  match s with
  | EmptyString => EmptyString
  | String c s' =>
      match trimRight s' with
      | EmptyString => if isSpace c then EmptyString else String c EmptyString
      | rest => String c rest
      end
  end.

Definition TrimSpace (s : string) : string := trimRight (trimLeft s).

Definition isLetter (c : ascii) : bool := isUpper c || isLower c.

(** [strings.Title]: upper-cases the letters that start a word. *)
Fixpoint titleFrom (atStart : bool) (s : string) : string :=
  match s with
  | EmptyString => EmptyString
  | String c s' =>
      String (if atStart then upperChar c else c) (titleFrom (negb (isLetter c)) s')
  end.

Definition Title (s : string) : string := titleFrom true s.

End GoStrings.

(** ** Configuration and data *)

(** [Config]. *)
Record Config := mkConfig { APIURL : string; Timeout : Duration; CacheTTL : Duration }.

Definition defaultAPIURL : string := "https://www.api-couleur-tempo.fr/api".
Definition defaultTimeout : Duration := 10 * Second.

Definition config : Config :=
  {| APIURL := defaultAPIURL; Timeout := defaultTimeout; CacheTTL := 30 * Minute |}.

(** [Data]: the tempo data currently shown. *)
Record Data := mkData {
  CurrentTarif : float;
  TarifLib : string;
  TodayColor : string;
  TomorrowColor : string;
  LastUpdated : Time
}.

(** The zero value [&Data{}] that [currentData] starts with. *)
Definition zeroTime : Time := mkTime (-62135596800 * Second) 0.
Definition zeroData : Data := mkData 0%float "" "" "" zeroTime.

(** [TempoResponse] and [NowResponse]: the two shapes the API answers
    with. *)
Record TempoResponse := mkTempoResponse {
  DateJour : string;
  CodeJour : Z;
  Periode : string
}.

Record NowResponse := mkNowResponse {
  ApplicableIn : Z;
  CodeCouleur : Z;
  CodeHoraire : Z;
  TarifKwh : float;
  LibTarif : string
}.

(** [cacheEntry]: a cached body and the end of its validity. *)
Record cacheEntry := mkCacheEntry { data : list byte; expires : Time }.

(** The mutable package-level state, and the URLs that [httpClient.Get]
    was called with, oldest first. *)
Record World := mkWorld {
  cache : gmap string cacheEntry;
  currentData : Data;
  wire : list string
}.

Definition withCache (c : gmap string cacheEntry) (w : World) : World :=
  mkWorld c (currentData w) (wire w).

Definition withData (d : Data) (w : World) : World :=
  mkWorld (cache w) d (wire w).

Definition request (url : string) (w : World) : World :=
  mkWorld (cache w) (currentData w) (wire w ++ [url]).

(** ** The outside world of one [fetch] call *)

(** The errors [fetch] returns. *)
Inductive error :=
| TransportError    (* [httpClient.Get] failed: no route, timeout, ... *)
| UnexpectedStatus  (* [errors.New("unexpected status code")] *)
| ReadError         (* [io.ReadAll] failed *)
| DecodeError.      (* [json.Unmarshal] failed *)

Inductive Result (T : Type) :=
| Ok (result : T)
| Err (err : error).
Arguments Ok {T} result.
Arguments Err {T} err.

(** What [httpClient.Get(url)] and reading the body come back with. *)
Inductive Reply :=
| NoResponse
| Response (StatusCode : Z) (Body : option (list byte)).

Definition StatusOK : Z := 200.

(** One call of [fetch] reads the clock at the cache lookup, may talk to
    the server, and reads the clock again when it fills the cache. *)
Record Exchange := mkExchange {
  lookupTime : Time;
  reply : Reply;
  storeTime : Time
}.

(** [json.Unmarshal(data, &result)] for a target type [T]. *)
Class Unmarshal (T : Type) := unmarshal : list byte -> option T.

(** ** The TTL cache inside [fetch] *)

(** [entry, exists := cache[url]; exists && time.Now().Before(entry.expires)]:
    the body that a lookup at [now] is served from the cache. *)
Definition cacheGet (now : Time) (url : string) (c : gmap string cacheEntry)
  : option (list byte) :=
  match c !! url with
  | Some entry => if Before now (expires entry) then Some (data entry) else None
  | None => None
  end.

(** [cache[url] = &cacheEntry{data: body, expires: time.Now().Add(config.CacheTTL)}]. *)
Definition cachePut (now : Time) (url : string) (body : list byte)
    (c : gmap string cacheEntry) : gmap string cacheEntry :=
  <[url := mkCacheEntry body (Add now (CacheTTL config))]> c.

(** ** [fetch] *)

Section Fetch.
Context {T : Type} {Dec : Unmarshal T}.

Definition fetch (url : string) (x : Exchange) (w : World) : Result T * World :=
  match cacheGet (lookupTime x) url (cache w) with
  | Some data =>
      match unmarshal data with
      | None => (Err DecodeError, w)
      | Some result => (Ok result, w)
      end
  | None =>
      let w := request url w in
      match reply x with
      | NoResponse => (Err TransportError, w)
      | Response status body =>
          if negb (status =? StatusOK) then (Err UnexpectedStatus, w)
          else
            match body with
            | None => (Err ReadError, w)
            | Some body =>
                match unmarshal body with
                | None => (Err DecodeError, w)
                | Some result =>
                    (Ok result,
                     withCache (cachePut (storeTime x) url body (cache w)) w)
                end
            end
      end
  end.

End Fetch.

(** ** The refresh: [codeToColor], [updateColors], [updateCurrentTarif] *)

Definition codeToColor (code : Z) : string :=
  match code with
  | 1 => "BLEU"
  | 2 => "BLANC"
  | 3 => "ROUGE"
  | _ => "INCONNU"
  end.

Definition todayURL : string := defaultAPIURL ++ "/jourTempo/today".
Definition tomorrowURL : string := defaultAPIURL ++ "/jourTempo/tomorrow".
Definition nowURL : string := defaultAPIURL ++ "/now".

Definition setTodayColor (s : string) (d : Data) : Data :=
  mkData (CurrentTarif d) (TarifLib d) s (TomorrowColor d) (LastUpdated d).

Definition setTomorrowColor (s : string) (d : Data) : Data :=
  mkData (CurrentTarif d) (TarifLib d) (TodayColor d) s (LastUpdated d).

Definition setTarif (tarif : float) (lib : string) (d : Data) : Data :=
  mkData tarif lib (TodayColor d) (TomorrowColor d) (LastUpdated d).

(** What the three fetches of one refresh meet outside. *)
Record Refresh := mkRefresh {
  today : Exchange;
  tomorrow : Exchange;
  now : Exchange
}.

Section Refresh.
Context {DecTempo : Unmarshal TempoResponse} {DecNow : Unmarshal NowResponse}.

(** The body of [updateColors], run with [dataMaj] held. *)
Definition updateColors (r : Refresh) (w : World) : World :=
  match fetch (T := TempoResponse) todayURL (today r) w with
  | (Err _, w) => withData (setTodayColor "ERREUR" (currentData w)) w
  | (Ok today, w) =>
      let w := withData (setTodayColor (codeToColor (CodeJour today)) (currentData w)) w in
      match fetch (T := TempoResponse) tomorrowURL (tomorrow r) w with
      | (Err _, w) => withData (setTomorrowColor "ERREUR" (currentData w)) w
      | (Ok tomorrow, w) =>
          withData (setTomorrowColor (codeToColor (CodeJour tomorrow)) (currentData w)) w
      end
  end.

(** The body of [updateCurrentTarif], run with [dataMaj] held. *)
Definition updateCurrentTarif (r : Refresh) (w : World) : World :=
  match fetch (T := NowResponse) nowURL (now r) w with
  | (Err _, w) => withData (setTarif 0%float "Erreur" (currentData w)) w
  | (Ok now, w) => withData (setTarif (TarifKwh now) (LibTarif now) (currentData w)) w
  end.

(** ** [updateData]: two goroutines, one mutex, one wait group

    The caller adds 2 to the wait group, starts one goroutine per
    update function and waits.  Each goroutine locks [dataMaj], runs its
    body, unlocks (the deferred call of the update function) and then
    signals the wait group (the deferred call of the goroutine). *)

Inductive Goroutine := Caller | Colors | Tarif.

Inductive CallerPC := AtAdd | AtGoColors | AtGoTarif | AtWait | Returned.

Inductive WorkerPC := NotStarted | AtLock | InBody | AtUnlock | AtDone | Exited.

Record Conf := mkConf {
  callerPC : CallerPC;
  colorsPC : WorkerPC;
  tarifPC : WorkerPC;
  dataMaj : bool;         (* [true]: locked *)
  wg : Z;                 (* the counter of the wait group *)
  world : World
}.

Definition initial (w : World) : Conf :=
  mkConf AtAdd NotStarted NotStarted false 0 w.

(** One step of the caller; [None] when it cannot move. *)
Definition stepCaller (c : Conf) : option Conf :=
  match callerPC c with
  | AtAdd =>
      Some (mkConf AtGoColors (colorsPC c) (tarifPC c) (dataMaj c) (wg c + 2) (world c))
  | AtGoColors =>
      Some (mkConf AtGoTarif AtLock (tarifPC c) (dataMaj c) (wg c) (world c))
  | AtGoTarif =>
      Some (mkConf AtWait (colorsPC c) AtLock (dataMaj c) (wg c) (world c))
  | AtWait =>
      if wg c =? 0
      then Some (mkConf Returned (colorsPC c) (tarifPC c) (dataMaj c) (wg c) (world c))
      else None
  | Returned => None
  end.

(** One step of a worker that is at [pc] and whose body is [body]: the
    next program counter, lock state, counter and world. *)
Definition stepWorker (body : World -> World) (pc : WorkerPC) (c : Conf)
  : option (WorkerPC * bool * Z * World) :=
  match pc with
  | NotStarted => None
  | AtLock => if dataMaj c then None else Some (InBody, true, wg c, world c)
  | InBody => Some (AtUnlock, dataMaj c, wg c, body (world c))
  | AtUnlock => Some (AtDone, false, wg c, world c)
  | AtDone => Some (Exited, dataMaj c, wg c - 1, world c)
  | Exited => None
  end.

Definition step (r : Refresh) (g : Goroutine) (c : Conf) : option Conf :=
  match g with
  | Caller => stepCaller c
  | Colors =>
      match stepWorker (updateColors r) (colorsPC c) c with
      | Some (pc, l, n, w) => Some (mkConf (callerPC c) pc (tarifPC c) l n w)
      | None => None
      end
  | Tarif =>
      match stepWorker (updateCurrentTarif r) (tarifPC c) c with
      | Some (pc, l, n, w) => Some (mkConf (callerPC c) (colorsPC c) pc l n w)
      | None => None
      end
  end.

(** Runs the goroutines in the order of a schedule; a schedule that
    picks a goroutine that cannot move is not a schedule of the
    program. *)
Fixpoint run (r : Refresh) (schedule : list Goroutine) (c : Conf) : option Conf :=
  match schedule with
  | [] => Some c
  | g :: schedule =>
      match step r g c with
      | Some c => run r schedule c
      | None => None
      end
  end.

(** The two orders in which the bodies can take the lock. *)
Definition updateData (colorsFirst : bool) (r : Refresh) (w : World) : World :=
  if colorsFirst then updateCurrentTarif r (updateColors r w)
  else updateColors r (updateCurrentTarif r w).

End Refresh.

(** The steps that a goroutine still has to take. *)
Definition callerLeft (pc : CallerPC) : nat :=
  match pc with
  | AtAdd => 4 | AtGoColors => 3 | AtGoTarif => 2 | AtWait => 1 | Returned => 0
  end%nat.

Definition workerLeft (pc : WorkerPC) : nat :=
  match pc with
  | NotStarted | AtLock => 4 | InBody => 3 | AtUnlock => 2 | AtDone => 1 | Exited => 0
  end%nat.

Definition remaining (c : Conf) : nat :=
  (callerLeft (callerPC c) + workerLeft (colorsPC c) + workerLeft (tarifPC c))%nat.

(** A worker holds [dataMaj] from its lock to its unlock; its body has
    run once it is past [InBody]; it counts in the wait group until it has
    exited. *)
Definition holding (pc : WorkerPC) : bool :=
  match pc with InBody | AtUnlock => true | _ => false end.

Definition bodyDone (pc : WorkerPC) : bool :=
  match pc with AtUnlock | AtDone | Exited => true | _ => false end.

Definition pending (pc : WorkerPC) : Z :=
  match pc with Exited => 0 | _ => 1 end.

Definition notStarted (pc : WorkerPC) : bool :=
  match pc with NotStarted => true | _ => false end.

(** The program counters that go together: a worker has started exactly
    when the caller is past its [go] statement, the caller has returned
    only when both workers have exited, and the two workers never hold the
    lock together. *)
Definition shape (m : CallerPC) (a b : WorkerPC) : bool :=
  negb (holding a && holding b) &&
  match m with
  | AtAdd | AtGoColors => notStarted a && notStarted b
  | AtGoTarif => negb (notStarted a) && notStarted b
  | AtWait => negb (notStarted a) && negb (notStarted b)
  | Returned => (pending a =? 0) && (pending b =? 0)
  end.

Section Invariant.
Context {DecTempo : Unmarshal TempoResponse} {DecNow : Unmarshal NowResponse}.

(** What holds of every configuration that a run of [updateData] from
    the world [w0] reaches: the shape of the program counters, the
    counter of the wait group is the number of workers still to exit,
    the lock is held exactly when a worker holds it, and the world is
    [w0] updated by the bodies that have run, in the order they ran. *)
Definition Inv (r : Refresh) (w0 : World) (c : Conf) : Prop :=
  shape (callerPC c) (colorsPC c) (tarifPC c) = true /\
  wg c = match callerPC c with
         | AtAdd => 0
         | _ => pending (colorsPC c) + pending (tarifPC c)
         end /\
  dataMaj c = holding (colorsPC c) || holding (tarifPC c) /\
  match bodyDone (colorsPC c), bodyDone (tarifPC c) with
  | false, false => world c = w0
  | true, false => world c = updateColors r w0
  | false, true => world c = updateCurrentTarif r w0
  | true, true =>
      world c = updateData true r w0 \/ world c = updateData false r w0
  end.

End Invariant.

(** ** Icons: [init], [mustAsset], [loadIcon], [updateIconBasedOnColor] *)

(** The machine the program runs on: [runtime.GOOS], the directory of the
    executable, [filepath.Join] and [os.ReadFile] ([None]: the read
    fails). *)
Record Platform := mkPlatform {
  GOOS : string;
  appDir : string;
  Join : string -> string -> string;
  ReadFile : string -> option (list byte)
}.

(** The three icons that [init] loads. *)
Record Icons := mkIcons {
  icnBlanc : list byte;
  icnRouge : list byte;
  icnBleu : list byte
}.

Definition len {A : Type} (l : list A) : Z := Z.of_nat (length l).

(** [mustAsset]; [None] stands for the panic. *)
Definition mustAsset (p : Platform) (relPath : string) : option (list byte) :=
  match ReadFile p (Join p (appDir p) relPath) with
  | None => None
  | Some data => if len data =? 0 then None else Some data
  end.

(** [init], after the path of the executable is known. *)
Definition init (p : Platform) : option Icons :=
  let '(blancExt, rougeExt, bleuExt) :=
    if (GOOS p =? "windows")%string
    then ("assets/white.ico", "assets/red.ico", "assets/blue.ico")
    else ("", "", "") in
  match mustAsset p blancExt with
  | None => None
  | Some blanc =>
      match mustAsset p rougeExt with
      | None => None
      | Some rouge =>
          match mustAsset p bleuExt with
          | None => None
          | Some bleu => Some (mkIcons blanc rouge bleu)
          end
      end
  end.

(** The loop over [iconPaths] at the end of [loadIcon]. *)
Fixpoint firstIcon (p : Platform) (iconPaths : list string) (fallback : list byte)
  : list byte :=
  match iconPaths with
  | [] => fallback
  | relPath :: iconPaths =>
      match ReadFile p (Join p (appDir p) relPath) with
      | Some data => if 100 <? len data then data else firstIcon p iconPaths fallback
      | None => firstIcon p iconPaths fallback
      end
  end.

Definition loadIcon (p : Platform) (ic : Icons) (colorName : string) : list byte :=
  let colorKey := GoStrings.ToLower (GoStrings.TrimSpace colorName) in
  if (colorKey =? "blanc")%string then icnBlanc ic
  else if (colorKey =? "rouge")%string then icnRouge ic
  else if (colorKey =? "bleu")%string then icnBleu ic
  else if ((colorKey =? "inconnu") || (colorKey =? "erreur"))%string then icnBlanc ic
  else
    let ext :=
      if (GOOS p =? "windows")%string then ".ico"
      else if (GOOS p =? "darwin")%string then ".png"
      else ".png" in
    let iconPaths :=
      [ "assets/" ++ colorKey ++ ext;
        "assets/" ++ GoStrings.Title colorKey ++ ext;
        "assets/icon_" ++ colorKey ++ ext ] in
    firstIcon p iconPaths (icnBlanc ic).

(** [updateIconBasedOnColor]: the icon handed to [systray.SetIcon]. *)
Definition updateIconBasedOnColor (p : Platform) (ic : Icons) (d : Data) : list byte :=
  let icon := loadIcon p ic (TodayColor d) in
  if 0 <? len icon then icon else icnBlanc ic.

(** The closed set of colors of the data model and the text that stands
    for each in [currentData]. *)
Inductive Color := Blue | White | Red | Unknown | Error.

Definition colorName (c : Color) : string :=
  match c with
  | Blue => "BLEU"
  | White => "BLANC"
  | Red => "ROUGE"
  | Unknown => "INCONNU"
  | Error => "ERREUR"
  end.

(** ** The midnight scheduler *)

(** The wall clock of a [Time]: hour, minute, second within the local day,
    and the nanosecond within the second. *)
Definition Clock (t : Time) : Z * Z * Z :=
  let sec := localSeconds t mod secondsPerDay in
  (sec / 3600, sec mod 3600 / 60, sec mod 60).

Definition NanosecondOf (t : Time) : Z := instant t mod Second.

(** [time.Date(now.Year(), now.Month(), now.Day()+1, 0, 0, 0, 0, now.Location())]. *)
Definition nextMidnight (now : Time) : Time :=
  Date (Year now) (Month now) (Day now + 1) 0 0 0 0 (zoneOffset now).

(** [duration := nextMidnight.Sub(now)]. *)
Definition midnightWait (now : Time) : Duration := Sub (nextMidnight now) now.

(** What a cycle of the scheduler does to its collaborators. *)
Inductive Event :=
| Sleep (d : Duration)
| SetIcon (icon : list byte)
| Notify (color : string) (tarif : float).

(** One turn of the loop: the clock reading at its top, the order in
    which the two goroutines of [updateData] take the lock, and what the
    fetches meet. *)
Record Cycle := mkCycle {
  wakeTime : Time;
  colorsFirst : bool;
  refresh : Refresh
}.

Definition sleeps (evs : list Event) : list Duration :=
  flat_map (fun e => match e with Sleep d => [d] | _ => [] end) evs.

Section Scheduler.
Context {DecTempo : Unmarshal TempoResponse} {DecNow : Unmarshal NowResponse}.
Variables (p : Platform) (ic : Icons).

Definition midnightCycle (cy : Cycle) (w : World) : list Event * World :=
  let duration := midnightWait (wakeTime cy) in
  let w := updateData (colorsFirst cy) (refresh cy) w in
  ([ Sleep duration;
     SetIcon (updateIconBasedOnColor p ic (currentData w));
     Notify (TodayColor (currentData w)) (CurrentTarif (currentData w)) ],
   w).

(** The first turns of the endless loop of [scheduleMidnightNotification],
    one per element of [cycles]. *)
Fixpoint scheduleMidnightNotification (cycles : list Cycle) (w : World)
  : list Event * World :=
  match cycles with
  | [] => ([], w)
  | cy :: cycles =>
      let '(evs, w) := midnightCycle cy w in
      let '(rest, w) := scheduleMidnightNotification cycles w in
      ((evs ++ rest)%list, w)
  end.

End Scheduler.

(** ** Repeated fetches of one URL *)

Section FetchAll.
Context {T : Type} {Dec : Unmarshal T}.

(** [fetch] called once per exchange, in order, on the same URL. *)
Fixpoint fetchAll (url : string) (xs : list Exchange) (w : World)
  : list (Result T) * World :=
  match xs with
  | [] => ([], w)
  | x :: xs =>
      let '(res, w) := fetch url x w in
      let '(rest, w) := fetchAll url xs w in
      (res :: rest, w)
  end.

End FetchAll.

(** ** What the specification says of a failing today-color fetch

    The specification wants the tomorrow-color field to follow its own
    fetch whatever the today-color fetch does: after [updateColors],
    [TomorrowColor] is the color of the tomorrow response, or the
    sentinel when that fetch fails. *)

Section Isolation.
Context {DecTempo : Unmarshal TempoResponse} {DecNow : Unmarshal NowResponse}.

Definition tomorrowOutcome (r : Refresh) (w : World) : string :=
  let w1 := snd (fetch (T := TempoResponse) todayURL (today r) w) in
  match fst (fetch (T := TempoResponse) tomorrowURL (tomorrow r) w1) with
  | Ok tomorrow => codeToColor (CodeJour tomorrow)
  | Err _ => "ERREUR"
  end.

Definition tomorrowIsolated (r : Refresh) (w : World) : Prop :=
  forall colorsFirst,
    TomorrowColor (currentData (updateData colorsFirst r w)) = tomorrowOutcome r w.

End Isolation.

(** ** Concrete bodies, decoders and worlds for the examples *)

Module Sample.

Definition bytes (s : string) : list byte := list_byte_of_string s.

(** The bytes of [{"key":]. *)
Definition member (key : string) : list byte :=
  ([x7b; x22] ++ bytes key ++ [x22; x3a])%list.

(** The body [{"codeJour":3}]. *)
Definition codeJour3 : list byte := (member "codeJour" ++ bytes "3}")%list.

(** The body [{"codeJour":1}]. *)
Definition codeJour1 : list byte := (member "codeJour" ++ bytes "1}")%list.

(** The body [{"tarifKwh":0.25,"libTarif":"HP"}]. *)
Definition tarifHP : list byte :=
  (member "tarifKwh" ++ bytes "0.25," ++ [x22] ++ bytes "libTarif" ++ [x22; x3a; x22]
     ++ bytes "HP" ++ [x22; x7d])%list.

(** A body that is not JSON. *)
Definition garbage : list byte := bytes "<html>".

Fixpoint stripPrefix (prefix l : list byte) : option (list byte) :=
  match prefix, l with
  | [], _ => Some l
  | a :: prefix, b :: l => if Byte.eqb a b then stripPrefix prefix l else None
  | _ :: _, [] => None
  end.

Definition digit (b : byte) : option Z :=
  let n := Z.of_N (Byte.to_N b) in
  if (48 <=? n) && (n <=? 57) then Some (n - 48) else None.

(** A decoder for the one-member objects [{"codeJour":d}], [d] a
    decimal digit. *)
Definition decodeTempo (body : list byte) : option TempoResponse :=
  match stripPrefix (member "codeJour") body with
  | Some [d; close] =>
      if Byte.eqb close x7d
      then match digit d with
           | Some n => Some (mkTempoResponse "" n "")
           | None => None
           end
      else None
  | _ => None
  end.

(** A decoder that knows the body [tarifHP]. *)
Definition decodeNow (body : list byte) : option NowResponse :=
  match stripPrefix tarifHP body with
  | Some [] => Some (mkNowResponse 0 0 0 0.25%float "HP")
  | _ => None
  end.

Definition unmarshalTempo : Unmarshal TempoResponse := decodeTempo.
Definition unmarshalNow : Unmarshal NowResponse := decodeNow.

(** 2026-10-31 12:00:00 in a zone one hour east of UTC, and ten seconds
    later. *)
Definition noon : Time := Date 2026 10 31 12 0 0 0 3600.
Definition afterNoon : Time := Add noon (10 * Second).

Definition ok (body : list byte) : Exchange :=
  mkExchange noon (Response 200 (Some body)) afterNoon.

Definition down : Exchange := mkExchange noon NoResponse afterNoon.

Definition emptyWorld : World := mkWorld ∅ zeroData [].

(** A world left by an earlier refresh: white today, white tomorrow. *)
Definition staleWorld : World :=
  mkWorld ∅ (mkData 0.25%float "HP" "BLANC" "BLANC" zeroTime) [].

(** A world whose cache holds an undecodable body for the today URL. *)
Definition corruptWorld : World :=
  mkWorld (<[todayURL := mkCacheEntry garbage (Add noon (CacheTTL config))]> ∅)
          zeroData [].

(** The server is down for the today query only. *)
Definition todayDown : Refresh := mkRefresh down (ok codeJour1) (ok tarifHP).

(** The server answers red for today and is down otherwise. *)
Definition onlyToday : Refresh := mkRefresh (ok codeJour3) down down.

(** The server answers every query. *)
Definition allUp : Refresh := mkRefresh (ok codeJour3) (ok codeJour1) (ok tarifHP).

(** The server answers nothing. *)
Definition allDown : Refresh := mkRefresh down down down.

(** The tariff query times out, the colors are answered. *)
Definition tarifDown : Refresh := mkRefresh (ok codeJour3) (ok codeJour1) down.

(** A Windows machine with its three icons and nothing else. *)
Definition windows : Platform :=
  mkPlatform "windows" "C:\tempo"
    (fun dir rel => dir ++ "\" ++ rel)
    (fun path =>
       if (path =? "C:\tempo\assets/white.ico")%string then Some (bytes "white")
       else if (path =? "C:\tempo\assets/red.ico")%string then Some (bytes "red")
       else if (path =? "C:\tempo\assets/blue.ico")%string then Some (bytes "blue")
       else None).

Definition icons : Icons := mkIcons (bytes "white") (bytes "red") (bytes "blue").

(** A schedule of [updateData]: the caller first, then the tariff
    goroutine, then the color goroutine. *)
Definition tarifThenColors : list Goroutine :=
  [Caller; Caller; Caller; Tarif; Tarif; Tarif; Tarif;
   Colors; Colors; Colors; Colors; Caller].

(** The configuration in which that schedule ends when the server
    answers nothing. *)
Definition finished : Conf :=
  mkConf Returned Exited Exited false 0
    (updateData (DecTempo := unmarshalTempo) (DecNow := unmarshalNow)
       false allDown emptyWorld).

End Sample.

(** ** The program over its whole life

    [dataMaj] is held for the whole of [updateColors] and of
    [updateCurrentTarif], so whatever refreshes run (at startup, on the
    menu, at midnight) and however they overlap, the package-level state
    goes through a sequence of whole bodies. *)

Inductive Body :=
| ColorsBody (r : Refresh)
| TarifBody (r : Refresh).

(** [var currentData = &Data{}] and [var cache = make(map[string]*cacheEntry)]. *)
Definition startWorld : World := mkWorld ∅ zeroData [].

(** The three URLs that the program fetches. *)
Definition apiURLs : gset string := {[ todayURL; tomorrowURL; nowURL ]}.

(** A text is one of the five color names. *)
Definition isColorName (s : string) : Prop := exists c, s = colorName c.

Section Life.
Context {DecTempo : Unmarshal TempoResponse} {DecNow : Unmarshal NowResponse}.

Definition runBody (b : Body) (w : World) : World :=
  match b with
  | ColorsBody r => updateColors r w
  | TarifBody r => updateCurrentTarif r w
  end.

Fixpoint runBodies (bs : list Body) (w : World) : World :=
  match bs with
  | [] => w
  | b :: bs => runBodies bs (runBody b w)
  end.

(** Every entry kept under one of the three URLs holds a body that
    decodes into the type that this URL is fetched with. *)
Definition wellTyped (c : gmap string cacheEntry) : Prop :=
  (forall e, c !! todayURL = Some e ->
     is_Some (unmarshal (T := TempoResponse) (data e))) /\
  (forall e, c !! tomorrowURL = Some e ->
     is_Some (unmarshal (T := TempoResponse) (data e))) /\
  (forall e, c !! nowURL = Some e ->
     is_Some (unmarshal (T := NowResponse) (data e))).

End Life.

(** ** More concrete machines and schedules for the examples *)

Module More.

(** A Linux machine: the application directory is a directory, reading
    it as a file fails, and the icon files are in place. *)
Definition linux : Platform :=
  mkPlatform "linux" "/opt/tempo"
    (fun dir rel => if (rel =? "")%string then dir else dir ++ "/" ++ rel)
    (fun path =>
       if (path =? "/opt/tempo/assets/white.ico")%string then Some (Sample.bytes "white")
       else if (path =? "/opt/tempo/assets/red.ico")%string then Some (Sample.bytes "red")
       else if (path =? "/opt/tempo/assets/blue.ico")%string then Some (Sample.bytes "blue")
       else None).

(** A schedule of [updateData] in which the color goroutine takes the
    lock first. *)
Definition colorsThenTarif : list Goroutine :=
  [Caller; Caller; Colors; Caller; Colors; Colors; Tarif; Colors;
   Tarif; Tarif; Tarif; Caller].

(** Where a complete run ends when the server answers every query and
    the bodies took the lock in the given order. *)
Definition finishedUp (colorsFirst : bool) : Conf :=
  mkConf Returned Exited Exited false 0
    (updateData (DecTempo := Sample.unmarshalTempo) (DecNow := Sample.unmarshalNow)
       colorsFirst Sample.allUp startWorld).

(** The start of a schedule: both goroutines started, the tariff one in
    its body, the color one waiting for the lock. *)
Definition tarifInBody : list Goroutine := [Caller; Caller; Caller; Tarif].

(** Where that start leads. *)
Definition tarifHolds : Conf := mkConf AtWait AtLock InBody true 2 startWorld.

(** Half past noon, less a second: inside the validity of what was cached
    ten seconds past noon. *)
Definition beforeExpiry : Time := Add Sample.noon (30 * Minute - 1 * Second).

(** Forty minutes past noon: after that validity. *)
Definition afterExpiry : Time := Add Sample.noon (40 * Minute).

(** The world after a first refresh that the server answered in full. *)
Definition warmWorld : World :=
  updateData (DecTempo := Sample.unmarshalTempo) (DecNow := Sample.unmarshalNow)
    true Sample.allUp startWorld.

(** A turn of the scheduler inside the validity of that cache, with the
    server down. *)
Definition quietCycle : Cycle :=
  mkCycle beforeExpiry true
    (mkRefresh (mkExchange beforeExpiry NoResponse beforeExpiry)
               (mkExchange beforeExpiry NoResponse beforeExpiry)
               (mkExchange beforeExpiry NoResponse beforeExpiry)).

(** A fetch after that validity, which the server answers with blue. *)
Definition lateBlue : Exchange :=
  mkExchange afterExpiry (Response 200 (Some Sample.codeJour1)) afterExpiry.

End More.

(** * Properties *)

(** ** The calendar *)

Lemma era_bounds (doe : Z) :
  0 <= doe < 146097 ->
  let yoe := (doe - doe / 1460 + doe / 36524 - doe / 146096) / 365 in
  let doy := doe - (365 * yoe + yoe / 4 - yoe / 100) in
  0 <= yoe <= 399 /\ 0 <= doy <= 365.
Proof.
  intros H yoe doy. subst yoe doy.
  Z.to_euclidean_division_equations; lia.
Qed.

(** Counting [k] days on from the civil date of day [n] gives day
    [n + k], and the month of a civil date is a month. *)
Lemma daysFromCivil_civilFromDays (n k : Z) :
  let '(y, m, d) := civilFromDays n in
  daysFromCivil y m (d + k) = n + k /\ 1 <= m <= 12.
Proof.
  unfold civilFromDays, daysFromCivil, dayOfShiftedMonth, daysToMarchEpoch.
  set (z := n + 719468).
  assert (Hdoe : 0 <= z mod 146097 < 146097) by (apply Z.mod_pos_bound; lia).
  pose proof (Z.div_mod z 146097 ltac:(lia)) as Hz.
  pose proof (era_bounds _ Hdoe) as Hb. cbv zeta in Hb.
  set (doe := z mod 146097) in *.
  set (yoe := (doe - doe / 1460 + doe / 36524 - doe / 146096) / 365) in *.
  set (doy := doe - (365 * yoe + yoe / 4 - yoe / 100)) in *.
  set (mp := (5 * doy + 2) / 153).
  assert (Hmp : 0 <= mp <= 11).
  { subst mp. Z.to_euclidean_division_equations; lia. }
  set (era := z / 146097) in *.
  destruct (mp <? 10) eqn:E.
  - apply Z.ltb_lt in E.
    replace (mp + 3 <=? 2) with false by (symmetry; apply Z.leb_gt; lia).
    replace (2 <? mp + 3) with true by (symmetry; apply Z.ltb_lt; lia).
    rewrite Z.add_0_r.
    replace ((yoe + era * 400) / 400) with era
      by (Z.to_euclidean_division_equations; lia).
    replace ((yoe + era * 400) mod 400) with yoe
      by (Z.to_euclidean_division_equations; lia).
    replace (mp + 3 - 3) with mp by lia.
    split; [|lia]. subst doy z. lia.
  - apply Z.ltb_ge in E.
    replace (mp - 9 <=? 2) with true by (symmetry; apply Z.leb_le; lia).
    replace (2 <? mp - 9) with false by (symmetry; apply Z.ltb_ge; lia).
    replace (yoe + era * 400 + 1 - 1) with (yoe + era * 400) by lia.
    replace ((yoe + era * 400) / 400) with era
      by (Z.to_euclidean_division_equations; lia).
    replace ((yoe + era * 400) mod 400) with yoe
      by (Z.to_euclidean_division_equations; lia).
    replace (mp - 9 + 9) with mp by lia.
    split; [|lia]. subst doy z. lia.
Qed.

(** The next midnight is the start of the local day after [now]. *)
Lemma nextMidnight_instant (now : Time) :
  instant (nextMidnight now)
  = ((localDay now + 1) * secondsPerDay - zoneOffset now) * Second
  /\ zoneOffset (nextMidnight now) = zoneOffset now.
Proof.
  unfold nextMidnight, Year, Month, Day.
  pose proof (daysFromCivil_civilFromDays (localDay now) 1) as H.
  destruct (civilFromDays (localDay now)) as [[y m] d]. cbn [fst snd].
  destruct H as [H Hm].
  unfold Date, norm.
  replace ((m - 1) / 12) with 0 by (Z.to_euclidean_division_equations; lia).
  replace ((m - 1) mod 12 + 1) with m by (Z.to_euclidean_division_equations; lia).
  change (0 mod Second) with 0. change (0 / Second) with 0.
  cbn [Z.add Z.div Z.modulo Z.div_eucl].
  change (0 mod 60) with 0. change (0 mod 24) with 0.
  rewrite !Z.add_0_r. cbn [instant zoneOffset].
  rewrite H. split; [lia | reflexivity].
Qed.

(** The wait is the time left in the local day: a day, less the seconds
    of the day that have passed, less the nanoseconds of the current
    second. *)
Lemma midnightWait_eq (now : Time) :
  midnightWait now
  = (secondsPerDay - localSeconds now mod secondsPerDay) * Second - NanosecondOf now.
Proof.
  unfold midnightWait, Sub.
  destruct (nextMidnight_instant now) as [-> _].
  unfold localDay, NanosecondOf, localSeconds, secondsPerDay, Second,
    minDuration, maxDuration.
  set (t := instant now). set (o := zoneOffset now).
  assert (E : ((t / 1000000000 + o) / 86400 + 1) * 86400 - o
              = 86400 - (t / 1000000000 + o) mod 86400 + t / 1000000000)
    by (Z.to_euclidean_division_equations; lia).
  rewrite E.
  assert (B : 0 <= (t / 1000000000 + o) mod 86400 < 86400)
    by (apply Z.mod_pos_bound; lia).
  assert (N : 0 <= t mod 1000000000 < 1000000000)
    by (apply Z.mod_pos_bound; lia).
  pose proof (Z.div_mod t 1000000000 ltac:(lia)) as D.
  set (s := (t / 1000000000 + o) mod 86400) in *.
  set (q := t / 1000000000) in *. set (n := t mod 1000000000) in *.
  replace ((86400 - s + q) * 1000000000 - t) with ((86400 - s) * 1000000000 - n) by lia.
  destruct (Z.ltb_spec ((86400 - s) * 1000000000 - n) (- 2 ^ 63)); [lia|].
  destruct (Z.ltb_spec (2 ^ 63 - 1) ((86400 - s) * 1000000000 - n)); [lia|].
  reflexivity.
Qed.

(** ** What [fetch] reads and writes *)

Section FetchFacts.
Context {T : Type} {Dec : Unmarshal T}.
Implicit Types (url u : string) (x : Exchange) (w : World).

(** [fetch] never touches [currentData]. *)
Lemma fetch_currentData url x w :
  currentData (fetch (T := T) url x w).2 = currentData w.
Proof. unfold fetch. repeat case_match; reflexivity. Qed.

(** [fetch] leaves the cache entries of the other URLs alone. *)
Lemma fetch_cache_ne url x w u :
  u ≠ url -> cache (fetch (T := T) url x w).2 !! u = cache w !! u.
Proof.
  intros Hne. unfold fetch, cachePut.
  repeat case_match; cbn; try reflexivity.
  by rewrite lookup_insert_ne.
Qed.

(** The result of [fetch] and the entry it leaves for its URL depend on
    the world through the cache entry of that URL only. *)
Lemma fetch_local url x w w' :
  cache w !! url = cache w' !! url ->
  (fetch (T := T) url x w).1 = (fetch (T := T) url x w').1 /\
  cache (fetch (T := T) url x w).2 !! url = cache (fetch (T := T) url x w').2 !! url.
Proof.
  intros E. unfold fetch, cacheGet, cachePut. rewrite <- E.
  repeat case_match; cbn; try (split; congruence).
  all: split; [reflexivity|]; by rewrite !lookup_insert_eq.
Qed.

(** A request goes over the wire exactly when the lookup misses. *)
Lemma fetch_wire url x w :
  wire (fetch (T := T) url x w).2
  = match cacheGet (lookupTime x) url (cache w) with
    | Some _ => wire w
    | None => (wire w ++ [url])%list
    end.
Proof. unfold fetch. repeat case_match; reflexivity. Qed.

(** The only entry [fetch] can write is a body that decodes, under its
    own URL, valid for the configured time from the clock reading at the
    write. *)
Lemma fetch_cache url x w :
  cache (fetch (T := T) url x w).2 = cache w \/
  exists body result,
    cacheGet (lookupTime x) url (cache w) = None /\
    reply x = Response StatusOK (Some body) /\
    unmarshal body = Some result /\
    (fetch (T := T) url x w).1 = Ok result /\
    cache (fetch (T := T) url x w).2 = cachePut (storeTime x) url body (cache w).
Proof.
  unfold fetch.
  destruct (cacheGet (lookupTime x) url (cache w)) as [d|] eqn:G.
  { left. by repeat case_match. }
  destruct (reply x) as [|status [body|]] eqn:R; cbn; auto.
  - destruct (status =? StatusOK) eqn:S; cbn; auto.
    apply Z.eqb_eq in S. subst status.
    destruct (unmarshal body) as [result|] eqn:U; cbn; auto.
    right. by exists body, result.
  - destruct (status =? StatusOK); cbn; auto.
Qed.

End FetchFacts.

(** A fetch that misses and is answered with a body that decodes. *)
Lemma fetch_miss_ok {T : Type} {Dec : Unmarshal T} (url : string) (x : Exchange) w
    body result :
  cacheGet (lookupTime x) url (cache w) = None ->
  reply x = Response StatusOK (Some body) ->
  unmarshal (T := T) body = Some result ->
  fetch (T := T) url x w
  = (Ok result,
     mkWorld (cachePut (storeTime x) url body (cache w)) (currentData w)
       (wire w ++ [url])).
Proof. intros G R U. unfold fetch. rewrite G, R. cbn. by rewrite U. Qed.

(** A lookup before the expiry of the entry is a hit. *)
Lemma cacheGet_fresh (t : Time) (url : string) (c : gmap string cacheEntry)
    (body : list byte) (putTime : Time) :
  c !! url = Some (mkCacheEntry body (Add putTime (CacheTTL config))) ->
  instant t < instant putTime + CacheTTL config ->
  cacheGet t url c = Some body.
Proof.
  intros E H. unfold cacheGet, Before. rewrite E. unfold Add.
  cbn [data expires instant].
  apply Z.ltb_lt in H. by rewrite H.
Qed.

(** ** The TTL cache *)

(** C2: a lookup made strictly before [put time + TTL] after a put of
    [body] under [url] is a hit and returns exactly [body]; a lookup made
    at or after that instant is a miss.  The put overwrites whatever the
    cache held for [url] and sets the expiry to [now + TTL]. *)
Theorem cache_get_after_put (url : string) (body : list byte)
    (putTime getTime : Time) (c : gmap string cacheEntry) :
  cachePut putTime url body c !! url
    = Some (mkCacheEntry body (Add putTime (CacheTTL config))) /\
  (instant getTime < instant putTime + CacheTTL config ->
   cacheGet getTime url (cachePut putTime url body c) = Some body) /\
  (instant putTime + CacheTTL config <= instant getTime ->
   cacheGet getTime url (cachePut putTime url body c) = None).
Proof.
  unfold cacheGet, cachePut. rewrite lookup_insert_eq. cbn [data expires].
  unfold Before, Add. cbn [instant].
  split; [reflexivity|]. split; intros H.
  - apply Z.ltb_lt in H. by rewrite H.
  - apply Z.ltb_ge in H. by rewrite H.
Qed.

Lemma cache_get_after_put_witness :
  cacheGet Sample.afterNoon todayURL
    (cachePut Sample.noon todayURL Sample.codeJour3 ∅) = Some Sample.codeJour3.
Proof.
  apply (proj1 (proj2 (cache_get_after_put todayURL Sample.codeJour3
                         Sample.noon Sample.afterNoon ∅))).
  vm_compute. reflexivity.
Defined.

(** The same at the level of [fetch]: once a fetch has filled the cache,
    a later fetch of the URL that reads the clock before the expiry is
    answered from the cache, without a request and without a write. *)
Lemma fetch_served_from_cache {T : Type} {Dec : Unmarshal T}
    (url : string) (x x' : Exchange) (w : World) (body : list byte) (result : T) :
  cacheGet (lookupTime x) url (cache w) = None ->
  reply x = Response StatusOK (Some body) ->
  unmarshal body = Some result ->
  instant (lookupTime x') < instant (storeTime x) + CacheTTL config ->
  let w1 := (fetch (T := T) url x w).2 in
  fetch (T := T) url x' w1 = (Ok result, w1).
Proof.
  intros G R U Hlt. cbn zeta.
  assert (C : cache (fetch (T := T) url x w).2 = cachePut (storeTime x) url body (cache w)).
  { unfold fetch. rewrite G, R, U. reflexivity. }
  unfold fetch at 1. rewrite C.
  rewrite (cacheGet_fresh (lookupTime x') url _ body (storeTime x)), U;
    [reflexivity | apply lookup_insert_eq | exact Hlt].
Qed.

(** C3: on a miss, a transport failure or a status other than 200 gives
    an error and no cache write; the body is decoded first, and its raw
    bytes are written, with the configured TTL, only when the decoding
    succeeded, so that every entry of the cache after the fetch was there
    before or holds a body that decodes. *)
Theorem fetch_miss_decode_before_cache {T : Type} {Dec : Unmarshal T}
    (url : string) (x : Exchange) (w : World) :
  cacheGet (lookupTime x) url (cache w) = None ->
  let res := (fetch (T := T) url x w).1 in
  let w' := (fetch (T := T) url x w).2 in
  (reply x = NoResponse -> res = Err TransportError /\ cache w' = cache w) /\
  (forall status body,
     reply x = Response status body -> status <> StatusOK ->
     res = Err UnexpectedStatus /\ cache w' = cache w) /\
  (reply x = Response StatusOK None -> res = Err ReadError /\ cache w' = cache w) /\
  (forall body,
     reply x = Response StatusOK (Some body) ->
     match unmarshal body with
     | Some result =>
         res = Ok result /\ cache w' = cachePut (storeTime x) url body (cache w)
     | None => res = Err DecodeError /\ cache w' = cache w
     end) /\
  (forall u entry,
     cache w' !! u = Some entry ->
     cache w !! u = Some entry \/
     u = url /\ is_Some (unmarshal (T := T) (data entry)) /\
     expires entry = Add (storeTime x) (CacheTTL config)).
Proof.
  intros G. cbn zeta. unfold fetch. rewrite G.
  split; [|split; [|split; [|split]]].
  - by intros ->.
  - intros status body -> Hs.
    apply Z.eqb_neq in Hs. by rewrite Hs.
  - by intros ->.
  - intros body ->. cbn. by destruct (unmarshal body).
  - intros u entry.
    destruct (reply x) as [|status [body|]]; cbn; auto.
    + destruct (status =? StatusOK); cbn; auto.
      destruct (unmarshal body) as [result|] eqn:U; cbn; auto.
      unfold cachePut. destruct (decide (url = u)) as [->|Hne].
      * rewrite lookup_insert_eq. intros [= <-]. right. cbn.
        rewrite U. eauto.
      * rewrite lookup_insert_ne by done. auto.
    + destruct (status =? StatusOK); cbn; auto.
Qed.

Lemma fetch_miss_decode_before_cache_witness :
  (fetch (Dec := Sample.unmarshalTempo) todayURL (Sample.ok Sample.garbage) Sample.emptyWorld).1
    = Err DecodeError /\
  cache (fetch (Dec := Sample.unmarshalTempo) todayURL (Sample.ok Sample.garbage) Sample.emptyWorld).2
    = cache Sample.emptyWorld.
Proof.
  assert (G : cacheGet (lookupTime (Sample.ok Sample.garbage)) todayURL
                (cache Sample.emptyWorld) = None) by reflexivity.
  destruct (fetch_miss_decode_before_cache (Dec := Sample.unmarshalTempo)
              todayURL (Sample.ok Sample.garbage) Sample.emptyWorld G)
    as (_ & _ & _ & H & _).
  exact (H Sample.garbage eq_refl).
Defined.

(** C4: when the lookup hits and the cached bytes do not decode, [fetch]
    returns the decoding error and leaves the world as it was: no request
    goes over the wire, the hit is not turned into a miss. *)
Theorem fetch_hit_decode_error {T : Type} {Dec : Unmarshal T}
    (url : string) (x : Exchange) (w : World) (cached : list byte) :
  cacheGet (lookupTime x) url (cache w) = Some cached ->
  unmarshal (T := T) cached = None ->
  fetch (T := T) url x w = (Err DecodeError, w).
Proof. intros G U. unfold fetch. by rewrite G, U. Qed.

Lemma fetch_hit_decode_error_witness :
  fetch (Dec := Sample.unmarshalTempo) todayURL (Sample.ok Sample.codeJour3) Sample.corruptWorld
  = (Err DecodeError, Sample.corruptWorld).
Proof.
  apply (fetch_hit_decode_error (Dec := Sample.unmarshalTempo) todayURL
           (Sample.ok Sample.codeJour3) Sample.corruptWorld Sample.garbage).
  - vm_compute. reflexivity.
  - vm_compute. reflexivity.
Defined.

(** C10: a hit on bytes that do not decode leaves the cache (and the rest
    of the world) unchanged, so every later fetch of the URL that reads
    the clock before the expiry of the entry hits it again and returns
    the same error; a fetch that reads the clock at or after the expiry
    goes to the server. *)
Theorem fetch_corrupt_entry_persists {T : Type} {Dec : Unmarshal T}
    (url : string) (w : World) (entry : cacheEntry) (xs : list Exchange) :
  cache w !! url = Some entry ->
  unmarshal (T := T) (data entry) = None ->
  Forall (fun x => instant (lookupTime x) < instant (expires entry)) xs ->
  fetchAll (T := T) url xs w = (map (fun _ => Err DecodeError) xs, w) /\
  (forall x, instant (expires entry) <= instant (lookupTime x) ->
     wire (fetch (T := T) url x w).2 = (wire w ++ [url])%list).
Proof.
  intros E U H. split.
  - induction H as [|x xs Hx _ IH]; [reflexivity|].
    cbn [fetchAll map].
    assert (G : cacheGet (lookupTime x) url (cache w) = Some (data entry)).
    { unfold cacheGet, Before. rewrite E.
      apply Z.ltb_lt in Hx. by rewrite Hx. }
    assert (F : fetch (T := T) url x w = (Err DecodeError, w))
      by (unfold fetch; by rewrite G, U).
    rewrite F, IH. reflexivity.
  - intros x Hx. rewrite fetch_wire.
    unfold cacheGet, Before. rewrite E.
    apply Z.ltb_ge in Hx. by rewrite Hx.
Qed.

Lemma fetch_corrupt_entry_persists_witness :
  fetchAll (Dec := Sample.unmarshalTempo) todayURL
    [Sample.ok Sample.codeJour3; Sample.down; Sample.ok Sample.codeJour1]
    Sample.corruptWorld
  = ([Err DecodeError; Err DecodeError; Err DecodeError], Sample.corruptWorld).
Proof.
  refine (proj1 (fetch_corrupt_entry_persists (Dec := Sample.unmarshalTempo) todayURL
                   Sample.corruptWorld
                   (mkCacheEntry Sample.garbage (Add Sample.noon (CacheTTL config)))
                   [Sample.ok Sample.codeJour3; Sample.down; Sample.ok Sample.codeJour1]
                   _ _ _)).
  - vm_compute. reflexivity.
  - vm_compute. reflexivity.
  - repeat constructor.
Defined.

(** ** What the two update functions read and write *)

Lemma urls_distinct :
  todayURL ≠ tomorrowURL /\ todayURL ≠ nowURL /\ tomorrowURL ≠ nowURL.
Proof. repeat split; apply String.eqb_neq; reflexivity. Qed.

Section RefreshFacts.
Context {DecTempo : Unmarshal TempoResponse} {DecNow : Unmarshal NowResponse}.
Implicit Types (r : Refresh) (w : World) (u : string).

(** [updateCurrentTarif] in terms of the result and the world that its
    fetch leaves. *)
Lemma updateCurrentTarif_unfold r w :
  updateCurrentTarif r w
  = let f := fetch (T := NowResponse) nowURL (now r) w in
    match f.1 with
    | Err _ => withData (setTarif 0%float "Erreur" (currentData f.2)) f.2
    | Ok n => withData (setTarif (TarifKwh n) (LibTarif n) (currentData f.2)) f.2
    end.
Proof.
  unfold updateCurrentTarif. cbn zeta.
  by destruct (fetch nowURL (now r) w) as [[n|e] w1].
Qed.

(** [updateColors] in the same terms. *)
Lemma updateColors_unfold r w :
  updateColors r w
  = let f := fetch (T := TempoResponse) todayURL (today r) w in
    match f.1 with
    | Err _ => withData (setTodayColor "ERREUR" (currentData f.2)) f.2
    | Ok t =>
        let w1 := withData (setTodayColor (codeToColor (CodeJour t)) (currentData f.2)) f.2 in
        let g := fetch (T := TempoResponse) tomorrowURL (tomorrow r) w1 in
        match g.1 with
        | Err _ => withData (setTomorrowColor "ERREUR" (currentData g.2)) g.2
        | Ok t' =>
            withData (setTomorrowColor (codeToColor (CodeJour t')) (currentData g.2)) g.2
        end
    end.
Proof.
  unfold updateColors. cbn zeta.
  destruct (fetch todayURL (today r) w) as [[t|e] w1]; cbn [fst snd]; [|done].
  by destruct (fetch tomorrowURL (tomorrow r) _) as [[t'|e'] w2].
Qed.

(** The tariff path leaves the colors and the other cache entries
    alone. *)
Lemma updateCurrentTarif_frame r w :
  TodayColor (currentData (updateCurrentTarif r w)) = TodayColor (currentData w) /\
  TomorrowColor (currentData (updateCurrentTarif r w)) = TomorrowColor (currentData w) /\
  LastUpdated (currentData (updateCurrentTarif r w)) = LastUpdated (currentData w) /\
  forall u, u ≠ nowURL -> cache (updateCurrentTarif r w) !! u = cache w !! u.
Proof.
  rewrite updateCurrentTarif_unfold. cbn zeta.
  pose proof (fetch_currentData (T := NowResponse) nowURL (now r) w) as D.
  pose proof (fetch_cache_ne (T := NowResponse) nowURL (now r) w) as C.
  destruct (fetch nowURL (now r) w) as [[n|e] w1]; cbn in *; by rewrite D.
Qed.

(** What the tariff path writes depends on the cache entry of its URL
    only. *)
Lemma updateCurrentTarif_local r w w' :
  cache w !! nowURL = cache w' !! nowURL ->
  CurrentTarif (currentData (updateCurrentTarif r w))
    = CurrentTarif (currentData (updateCurrentTarif r w')) /\
  TarifLib (currentData (updateCurrentTarif r w))
    = TarifLib (currentData (updateCurrentTarif r w')) /\
  cache (updateCurrentTarif r w) !! nowURL = cache (updateCurrentTarif r w') !! nowURL.
Proof.
  intros E. rewrite !updateCurrentTarif_unfold. cbn zeta.
  destruct (fetch_local (T := NowResponse) nowURL (now r) w w' E) as [R C].
  destruct (fetch nowURL (now r) w) as [res w1],
           (fetch nowURL (now r) w') as [res' w1'].
  cbn [fst snd] in *. subst res'.
  by destruct res.
Qed.

(** The color path leaves the tariff and the other cache entries
    alone. *)
Lemma updateColors_frame r w :
  CurrentTarif (currentData (updateColors r w)) = CurrentTarif (currentData w) /\
  TarifLib (currentData (updateColors r w)) = TarifLib (currentData w) /\
  LastUpdated (currentData (updateColors r w)) = LastUpdated (currentData w) /\
  forall u, u ≠ todayURL -> u ≠ tomorrowURL ->
    cache (updateColors r w) !! u = cache w !! u.
Proof.
  rewrite updateColors_unfold. cbn zeta.
  pose proof (fetch_currentData (T := TempoResponse) todayURL (today r) w) as D.
  pose proof (fetch_cache_ne (T := TempoResponse) todayURL (today r) w) as C.
  destruct (fetch todayURL (today r) w) as [[t|e] w1]; cbn [fst snd] in *.
  2:{ cbn. rewrite D. repeat split; auto. }
  set (w2 := withData _ w1).
  pose proof (fetch_currentData (T := TempoResponse) tomorrowURL (tomorrow r) w2) as D'.
  pose proof (fetch_cache_ne (T := TempoResponse) tomorrowURL (tomorrow r) w2) as C'.
  destruct (fetch tomorrowURL (tomorrow r) w2) as [[t'|e'] w3]; cbn [fst snd] in *;
    cbn; rewrite D'; subst w2; cbn; rewrite D;
    (repeat split; [..|intros u H1 H2; rewrite C' by done; cbn; auto]); done.
Qed.

(** What the color path writes depends on the cache entries of its two
    URLs and on the colors shown before. *)
Lemma updateColors_local r w w' :
  cache w !! todayURL = cache w' !! todayURL ->
  cache w !! tomorrowURL = cache w' !! tomorrowURL ->
  TodayColor (currentData w) = TodayColor (currentData w') ->
  TomorrowColor (currentData w) = TomorrowColor (currentData w') ->
  TodayColor (currentData (updateColors r w))
    = TodayColor (currentData (updateColors r w')) /\
  TomorrowColor (currentData (updateColors r w))
    = TomorrowColor (currentData (updateColors r w')) /\
  cache (updateColors r w) !! todayURL = cache (updateColors r w') !! todayURL /\
  cache (updateColors r w) !! tomorrowURL = cache (updateColors r w') !! tomorrowURL.
Proof.
  intros E1 E2 E3 E4. rewrite !updateColors_unfold. cbn zeta.
  destruct urls_distinct as (N12 & _ & _).
  destruct (fetch_local (T := TempoResponse) todayURL (today r) w w' E1) as [R C].
  pose proof (fetch_currentData (T := TempoResponse) todayURL (today r) w) as D.
  pose proof (fetch_currentData (T := TempoResponse) todayURL (today r) w') as D'.
  pose proof (fetch_cache_ne (T := TempoResponse) todayURL (today r) w tomorrowURL
                (not_eq_sym N12)) as F.
  pose proof (fetch_cache_ne (T := TempoResponse) todayURL (today r) w' tomorrowURL
                (not_eq_sym N12)) as F'.
  destruct (fetch todayURL (today r) w) as [res w1],
           (fetch todayURL (today r) w') as [res' w1'].
  cbn [fst snd] in *. subst res'.
  destruct res as [t|e]; cbn [fst snd].
  2:{ cbn. rewrite D, D'. repeat split; congruence. }
  set (v := withData _ w1). set (v' := withData _ w1').
  assert (E2' : cache v !! tomorrowURL = cache v' !! tomorrowURL)
    by (subst v v'; cbn; congruence).
  destruct (fetch_local (T := TempoResponse) tomorrowURL (tomorrow r) v v' E2') as [R2 C2].
  pose proof (fetch_currentData (T := TempoResponse) tomorrowURL (tomorrow r) v) as D2.
  pose proof (fetch_currentData (T := TempoResponse) tomorrowURL (tomorrow r) v') as D2'.
  pose proof (fetch_cache_ne (T := TempoResponse) tomorrowURL (tomorrow r) v todayURL N12) as G.
  pose proof (fetch_cache_ne (T := TempoResponse) tomorrowURL (tomorrow r) v' todayURL N12) as G'.
  destruct (fetch tomorrowURL (tomorrow r) v) as [res2 v2],
           (fetch tomorrowURL (tomorrow r) v') as [res2' v2'].
  cbn [fst snd] in *. subst res2'.
  assert (Cv : cache v2 !! todayURL = cache v2' !! todayURL)
    by (rewrite G, G'; subst v v'; cbn; exact C).
  destruct res2 as [t'|e']; cbn; rewrite D2, D2'; subst v v'; cbn;
    repeat split; auto.
Qed.

End RefreshFacts.

(** ** The two orders of a refresh *)

Section OrderFacts.
Context {DecTempo : Unmarshal TempoResponse} {DecNow : Unmarshal NowResponse}.
Implicit Types (r : Refresh) (w : World) (u : string).

(** Whichever goroutine takes the lock first, the colors after the
    refresh are those that the color path computes from the starting
    world, the tariff is the one that the tariff path computes from it,
    and so is every cache entry: the order shows on the wire only. *)
Lemma updateData_fields (colorsFirst : bool) r w :
  let w' := updateData colorsFirst r w in
  TodayColor (currentData w') = TodayColor (currentData (updateColors r w)) /\
  TomorrowColor (currentData w') = TomorrowColor (currentData (updateColors r w)) /\
  CurrentTarif (currentData w') = CurrentTarif (currentData (updateCurrentTarif r w)) /\
  TarifLib (currentData w') = TarifLib (currentData (updateCurrentTarif r w)) /\
  LastUpdated (currentData w') = LastUpdated (currentData w) /\
  cache w' !! todayURL = cache (updateColors r w) !! todayURL /\
  cache w' !! tomorrowURL = cache (updateColors r w) !! tomorrowURL /\
  cache w' !! nowURL = cache (updateCurrentTarif r w) !! nowURL.
Proof.
  destruct urls_distinct as (N12 & N13 & N23).
  destruct (updateColors_frame r w) as (Ct & Cl & Cu & Cc).
  destruct (updateCurrentTarif_frame r w) as (Tt & Tm & Tu & Tc).
  cbn zeta. unfold updateData. destruct colorsFirst.
  - destruct (updateCurrentTarif_frame r (updateColors r w)) as (Tt' & Tm' & Tu' & Tc').
    destruct (updateCurrentTarif_local r (updateColors r w) w) as (L1 & L2 & L3).
    { apply Cc; auto. }
    rewrite Tt', Tm', Tu', L1, L2, L3, Cu, !Tc' by auto.
    repeat split; reflexivity.
  - destruct (updateColors_frame r (updateCurrentTarif r w)) as (Ct' & Cl' & Cu' & Cc').
    destruct (updateColors_local r (updateCurrentTarif r w) w) as (L1 & L2 & L3 & L4);
      auto.
    rewrite Ct', Cl', Cu', L1, L2, L3, L4, Tu, Cc' by auto.
    repeat split; reflexivity.
Qed.

(** ** Runs of [updateData] *)

Lemma Inv_initial r w : Inv r w (initial w).
Proof. repeat split. Qed.

(** A step keeps the invariant and uses up one of the remaining
    steps. *)
Lemma step_Inv r w0 g c c' :
  Inv r w0 c -> step r g c = Some c' ->
  Inv r w0 c' /\ S (remaining c') = remaining c.
Proof.
  destruct c as [m a b l n wd]. unfold Inv, remaining. cbn.
  intros (Hs & Hn & Hl & Hw) Hstep. subst n l.
  destruct g, m, a, b; cbn in *; try discriminate;
    injection Hstep as <-; cbn; subst;
    repeat split; auto; try lia.
Qed.

Lemma run_Inv r w0 schedule : forall c c',
  Inv r w0 c -> run r schedule c = Some c' ->
  Inv r w0 c' /\ (length schedule + remaining c')%nat = remaining c.
Proof.
  induction schedule as [|g schedule IH]; intros c c' HI Hrun; cbn in *.
  - injection Hrun as <-. auto.
  - destruct (step r g c) as [c1|] eqn:Hstep; [|discriminate].
    destruct (step_Inv r w0 g c c1 HI Hstep) as [HI1 Hm].
    destruct (IH c1 c' HI1 Hrun) as [HI' Hlen]. split; [done|lia].
Qed.

(** No deadlock: under the invariant, the caller has returned or some
    goroutine can move. *)
Lemma Inv_progress r w0 c :
  Inv r w0 c -> callerPC c = Returned \/ exists g c', step r g c = Some c'.
Proof.
  destruct c as [m a b l n wd]. unfold Inv. cbn.
  intros (Hs & Hn & Hl & _). subst n l.
  destruct m, a, b; cbn in *; try discriminate;
    first [ left; reflexivity
          | right; exists Caller; eexists; reflexivity
          | right; exists Colors; eexists; reflexivity
          | right; exists Tarif; eexists; reflexivity ].
Qed.

(** When the caller has returned, both workers have exited, the lock is
    free, the counter is zero and the world is that of one of the two
    orders. *)
Lemma Inv_returned r w0 c :
  Inv r w0 c -> callerPC c = Returned ->
  colorsPC c = Exited /\ tarifPC c = Exited /\ dataMaj c = false /\ wg c = 0 /\
  exists colorsFirst, world c = updateData colorsFirst r w0.
Proof.
  destruct c as [m a b l n wd]. unfold Inv. cbn.
  intros (Hs & Hn & Hl & Hw) ->. subst n l.
  destruct a, b; cbn in *; try discriminate.
  do 4 (split; [reflexivity|]).
  destruct Hw as [-> | ->]; [by exists true | by exists false].
Qed.

(** Every run can be completed. *)
Lemma Inv_completes r w0 (k : nat) : forall c,
  remaining c = k -> Inv r w0 c ->
  exists rest c', run r rest c = Some c' /\ callerPC c' = Returned.
Proof.
  induction k as [k IH] using lt_wf_ind. intros c Hk HI.
  destruct (Inv_progress r w0 c HI) as [Hret | (g & c1 & Hstep)].
  - exists [], c. auto.
  - destruct (step_Inv r w0 g c c1 HI Hstep) as [HI1 Hm].
    destruct (IH (remaining c1) ltac:(lia) c1 eq_refl HI1) as (rest & c' & Hrun & Hret).
    exists (g :: rest), c'. cbn. rewrite Hstep. auto.
Qed.

End OrderFacts.

(** C8: [updateData] always returns to its caller.  Whatever the three
    fetches meet and however the goroutines are scheduled, a run from the
    start of [updateData] has used up as many of the 12 steps of the
    program as it is long; it has returned or one of the goroutines can
    move (no deadlock); it can be completed; and when the caller has
    returned, after 12 steps, both workers have exited, the lock is free,
    the counter of the wait group is zero and the world is that of one of
    the two orders of the bodies. *)
Theorem updateData_terminates
    {DecTempo : Unmarshal TempoResponse} {DecNow : Unmarshal NowResponse}
    (r : Refresh) (w : World) (schedule : list Goroutine) (c : Conf) :
  run r schedule (initial w) = Some c ->
  (length schedule + remaining c = 12)%nat /\
  (callerPC c = Returned \/ exists g c', step r g c = Some c') /\
  (exists rest c', run r rest c = Some c' /\ callerPC c' = Returned) /\
  (callerPC c = Returned ->
   length schedule = 12%nat /\
   colorsPC c = Exited /\ tarifPC c = Exited /\ dataMaj c = false /\ wg c = 0 /\
   exists colorsFirst, world c = updateData colorsFirst r w).
Proof.
  intros Hrun.
  destruct (run_Inv r w schedule _ _ (Inv_initial r w) Hrun) as [HI Hlen].
  change (remaining (initial w)) with 12%nat in Hlen.
  split; [exact Hlen|].
  split; [exact (Inv_progress r w c HI)|].
  split; [exact (Inv_completes r w (remaining c) c eq_refl HI)|].
  intros Hret.
  destruct (Inv_returned r w c HI Hret) as (Ha & Hb & Hl & Hn & Hw).
  repeat (split; [assumption|]); try assumption.
  unfold remaining in Hlen. rewrite Hret, Ha, Hb in Hlen. cbn in Hlen.
  split; [lia|]. auto.
Qed.

Lemma updateData_terminates_witness :
  run (DecTempo := Sample.unmarshalTempo) (DecNow := Sample.unmarshalNow)
    Sample.allDown Sample.tarifThenColors (initial Sample.emptyWorld)
    = Some Sample.finished /\
  callerPC Sample.finished = Returned /\
  (length Sample.tarifThenColors + remaining Sample.finished = 12)%nat.
Proof.
  assert (R : run (DecTempo := Sample.unmarshalTempo) (DecNow := Sample.unmarshalNow)
                Sample.allDown Sample.tarifThenColors (initial Sample.emptyWorld)
              = Some Sample.finished) by (vm_compute; reflexivity).
  split; [exact R|]. split; [reflexivity|].
  exact (proj1 (updateData_terminates Sample.allDown Sample.emptyWorld
                  Sample.tarifThenColors Sample.finished R)).
Defined.

(** ** What a refresh does with the outcomes of its fetches *)

Section Outcomes.
Context {DecTempo : Unmarshal TempoResponse} {DecNow : Unmarshal NowResponse}.
Implicit Types (r : Refresh) (w : World) (u : string).

(** The wire only grows. *)
Lemma fetch_wire_grows {T : Type} {Dec : Unmarshal T} url x w u :
  In u (wire w) -> In u (wire (fetch (T := T) url x w).2).
Proof.
  intros H. rewrite fetch_wire.
  destruct (cacheGet _ _ _); [done|]. apply in_or_app. by left.
Qed.

(** A fetch that misses puts its URL on the wire. *)
Lemma fetch_wire_miss {T : Type} {Dec : Unmarshal T} url x w :
  cacheGet (lookupTime x) url (cache w) = None ->
  In url (wire (fetch (T := T) url x w).2).
Proof.
  intros G. rewrite fetch_wire, G. apply in_or_app. right. by left.
Qed.

Lemma updateCurrentTarif_wire r w :
  wire (updateCurrentTarif r w) = wire (fetch (T := NowResponse) nowURL (now r) w).2.
Proof.
  rewrite updateCurrentTarif_unfold. cbn zeta.
  by destruct (fetch nowURL (now r) w).1.
Qed.

Lemma updateColors_wire_grows r w u :
  In u (wire (fetch (T := TempoResponse) todayURL (today r) w).2) ->
  In u (wire (updateColors r w)).
Proof.
  intros H. rewrite updateColors_unfold. cbn zeta.
  destruct (fetch todayURL (today r) w) as [[t|e] w1]; cbn [fst snd] in *; [|done].
  set (w2 := withData _ w1).
  assert (H2 : In u (wire w2)) by done.
  apply (fetch_wire_grows (T := TempoResponse) tomorrowURL (tomorrow r)) in H2.
  by destruct (fetch tomorrowURL (tomorrow r) w2) as [[t'|e'] w3].
Qed.

(** Both paths run in either order: the today query and the tariff query
    go over the wire whenever the cache does not answer them. *)
Lemma updateData_wire (colorsFirst : bool) r w :
  (cacheGet (lookupTime (today r)) todayURL (cache w) = None ->
   In todayURL (wire (updateData colorsFirst r w))) /\
  (cacheGet (lookupTime (now r)) nowURL (cache w) = None ->
   In nowURL (wire (updateData colorsFirst r w))).
Proof.
  destruct urls_distinct as (N12 & N13 & N23).
  destruct (updateColors_frame r w) as (_ & _ & _ & Cc).
  destruct (updateCurrentTarif_frame r w) as (_ & _ & _ & Tc).
  unfold updateData. destruct colorsFirst; split; intros G.
  - rewrite updateCurrentTarif_wire. apply fetch_wire_grows.
    apply updateColors_wire_grows. by apply fetch_wire_miss.
  - rewrite updateCurrentTarif_wire. apply fetch_wire_miss.
    unfold cacheGet in *. rewrite Cc by auto. exact G.
  - apply updateColors_wire_grows. apply fetch_wire_miss.
    unfold cacheGet in *. rewrite Tc by auto. exact G.
  - apply updateColors_wire_grows. apply fetch_wire_grows.
    rewrite updateCurrentTarif_wire. by apply fetch_wire_miss.
Qed.

(** The tariff path after a failed fetch. *)
Lemma updateCurrentTarif_error r w e :
  (fetch (T := NowResponse) nowURL (now r) w).1 = Err e ->
  currentData (updateCurrentTarif r w) = setTarif 0%float "Erreur" (currentData w).
Proof.
  intros F. rewrite updateCurrentTarif_unfold. cbn zeta. rewrite F. cbn.
  by rewrite fetch_currentData.
Qed.

(** The tariff path after a successful fetch. *)
Lemma updateCurrentTarif_ok r w n :
  (fetch (T := NowResponse) nowURL (now r) w).1 = Ok n ->
  currentData (updateCurrentTarif r w)
  = setTarif (TarifKwh n) (LibTarif n) (currentData w).
Proof.
  intros F. rewrite updateCurrentTarif_unfold. cbn zeta. rewrite F. cbn.
  by rewrite fetch_currentData.
Qed.

(** The color path after a failed today fetch: it stops there. *)
Lemma updateColors_today_error r w e :
  (fetch (T := TempoResponse) todayURL (today r) w).1 = Err e ->
  updateColors r w
  = withData (setTodayColor "ERREUR" (currentData w))
      (fetch (T := TempoResponse) todayURL (today r) w).2.
Proof.
  intros F. rewrite updateColors_unfold. cbn zeta. rewrite F.
  by rewrite fetch_currentData.
Qed.

(** The color path after a successful today fetch: the today color is
    written, and the tomorrow fetch decides the tomorrow color. *)
Lemma updateColors_today_ok r w t :
  (fetch (T := TempoResponse) todayURL (today r) w).1 = Ok t ->
  let w1 := (fetch (T := TempoResponse) todayURL (today r) w).2 in
  TodayColor (currentData (updateColors r w)) = codeToColor (CodeJour t) /\
  TomorrowColor (currentData (updateColors r w))
  = match (fetch (T := TempoResponse) tomorrowURL (tomorrow r) w1).1 with
    | Ok t' => codeToColor (CodeJour t')
    | Err _ => "ERREUR"
    end /\
  cache (updateColors r w) !! todayURL = cache w1 !! todayURL /\
  (cacheGet (lookupTime (tomorrow r)) tomorrowURL (cache w1) = None ->
   In tomorrowURL (wire (updateColors r w))).
Proof.
  intros F. cbn zeta. rewrite updateColors_unfold. cbn zeta. rewrite F.
  set (w1 := (fetch todayURL (today r) w).2).
  set (w2 := withData _ w1).
  destruct (fetch_local (T := TempoResponse) tomorrowURL (tomorrow r) w2 w1 eq_refl)
    as [R _].
  pose proof (fetch_currentData (T := TempoResponse) tomorrowURL (tomorrow r) w2) as D.
  pose proof (fetch_cache_ne (T := TempoResponse) tomorrowURL (tomorrow r) w2 todayURL
                (proj1 urls_distinct)) as C.
  pose proof (fetch_wire_miss (T := TempoResponse) tomorrowURL (tomorrow r) w2) as W.
  rewrite <- R.
  destruct (fetch tomorrowURL (tomorrow r) w2) as [[t'|e'] w3]; cbn [fst snd] in *;
    cbn; rewrite D; subst w2; cbn in *; repeat split; auto.
Qed.

End Outcomes.

Section Isolated.
Context {DecTempo : Unmarshal TempoResponse} {DecNow : Unmarshal NowResponse}.
Implicit Types (r : Refresh) (w : World).

(** In either order, a tomorrow query that the cache does not answer goes
    over the wire once the today fetch has succeeded. *)
Lemma updateData_wire_tomorrow (colorsFirst : bool) r w t :
  (fetch (T := TempoResponse) todayURL (today r) w).1 = Ok t ->
  cacheGet (lookupTime (tomorrow r)) tomorrowURL
    (cache (fetch (T := TempoResponse) todayURL (today r) w).2) = None ->
  In tomorrowURL (wire (updateData colorsFirst r w)).
Proof.
  intros F G.
  destruct urls_distinct as (N12 & N13 & N23).
  unfold updateData. destruct colorsFirst.
  - rewrite updateCurrentTarif_wire. apply fetch_wire_grows.
    by apply (updateColors_today_ok r w t F).
  - destruct (updateCurrentTarif_frame r w) as (_ & _ & _ & Tc).
    set (v := updateCurrentTarif r w) in *.
    destruct (fetch_local (T := TempoResponse) todayURL (today r) v w) as [R _].
    { apply Tc; auto. }
    apply (updateColors_today_ok r v t); [congruence|].
    unfold cacheGet in *.
    rewrite fetch_cache_ne by auto.
    rewrite fetch_cache_ne in G by auto.
    rewrite Tc by auto. exact G.
Qed.

End Isolated.

(** ** The refresh *)

(** C1, as stated, fails.  With the server down for the today query only,
    an empty cache and white shown for tomorrow: the today fetch fails,
    the tomorrow fetch would answer blue, and yet in either order of the
    goroutines the tomorrow field still shows white (neither blue nor the
    sentinel) and no tomorrow query has gone over the wire. *)
Lemma today_failure_aborts_tomorrow :
  let r := Sample.todayDown in
  let w := Sample.staleWorld in
  let DecTempo := Sample.unmarshalTempo in
  let DecNow := Sample.unmarshalNow in
  (fetch (T := TempoResponse) todayURL (today r) w).1 = Err TransportError /\
  tomorrowOutcome r w = "BLEU" /\
  (forall colorsFirst,
     TomorrowColor (currentData (updateData colorsFirst r w)) = "BLANC" /\
     wire (updateData colorsFirst r w) ≠ [] /\
     ~ In tomorrowURL (wire (updateData colorsFirst r w))) /\
  ~ tomorrowIsolated r w.
Proof.
  cbn zeta. split; [vm_compute; reflexivity|]. split; [vm_compute; reflexivity|].
  split.
  - intros [|]; (split; [vm_compute; reflexivity|]);
      (split; [vm_compute; discriminate|]);
      intros H; vm_compute in H; intuition discriminate.
  - intros H. specialize (H true). vm_compute in H. discriminate.
Qed.

(** C1, amended: the color path and the tariff path of a refresh are
    isolated from each other, and a failure never rolls back a field
    written before it.  In either order of the goroutines and whatever the
    fetches meet: the today query and the tariff query are both sent when
    the cache does not answer them; the tariff fields are those of the
    tariff fetch alone (its values, or 0 and "Erreur" when it fails); the
    today color is that of the today fetch alone (its color, or "ERREUR"
    when it fails); and when the today fetch succeeds, the tomorrow fetch
    is performed and the tomorrow color is its color, or "ERREUR" when
    it fails, the today color staying as written. *)
Theorem refresh_failures_isolated
    {DecTempo : Unmarshal TempoResponse} {DecNow : Unmarshal NowResponse}
    (colorsFirst : bool) (r : Refresh) (w : World) :
  let w' := updateData colorsFirst r w in
  let d := currentData w' in
  let fToday := fetch (T := TempoResponse) todayURL (today r) w in
  let fTomorrow := fetch (T := TempoResponse) tomorrowURL (tomorrow r) fToday.2 in
  let fNow := fetch (T := NowResponse) nowURL (now r) w in
  (cacheGet (lookupTime (today r)) todayURL (cache w) = None ->
   In todayURL (wire w')) /\
  (cacheGet (lookupTime (now r)) nowURL (cache w) = None ->
   In nowURL (wire w')) /\
  (forall e, fNow.1 = Err e ->
     CurrentTarif d = 0%float /\ TarifLib d = "Erreur") /\
  (forall n, fNow.1 = Ok n ->
     CurrentTarif d = TarifKwh n /\ TarifLib d = LibTarif n) /\
  (forall e, fToday.1 = Err e -> TodayColor d = "ERREUR") /\
  (forall t, fToday.1 = Ok t ->
     TodayColor d = codeToColor (CodeJour t) /\
     TomorrowColor d = match fTomorrow.1 with
                       | Ok t' => codeToColor (CodeJour t')
                       | Err _ => "ERREUR"
                       end /\
     (cacheGet (lookupTime (tomorrow r)) tomorrowURL (cache fToday.2) = None ->
      In tomorrowURL (wire w'))).
Proof.
  cbn zeta.
  destruct (updateData_fields colorsFirst r w) as (Ft & Fm & Fc & Fl & _).
  destruct (updateData_wire colorsFirst r w) as (Wt & Wn).
  rewrite Ft, Fm, Fc, Fl.
  split; [exact Wt|]. split; [exact Wn|].
  split; [|split; [|split]].
  - intros e F. by rewrite (updateCurrentTarif_error r w e F).
  - intros n F. by rewrite (updateCurrentTarif_ok r w n F).
  - intros e F. by rewrite (updateColors_today_error r w e F).
  - intros t F.
    destruct (updateColors_today_ok r w t F) as (H1 & H2 & _ & _).
    split; [exact H1|]. split; [exact H2|].
    by apply updateData_wire_tomorrow with t.
Qed.

Lemma refresh_failures_isolated_witness :
  TodayColor (currentData
    (updateData (DecTempo := Sample.unmarshalTempo) (DecNow := Sample.unmarshalNow)
       true Sample.todayDown Sample.staleWorld)) = "ERREUR".
Proof.
  refine (proj1 (proj2 (proj2 (proj2 (proj2
            (refresh_failures_isolated (DecTempo := Sample.unmarshalTempo)
               (DecNow := Sample.unmarshalNow)
               true Sample.todayDown Sample.staleWorld))))) TransportError _).
  vm_compute. reflexivity.
Defined.

(** C7: when the tariff fetch fails, [updateCurrentTarif] sets
    [CurrentTarif] to 0 and [TarifLib] to "Erreur" and leaves both colors
    as they were; and after the whole refresh, in either order of the
    goroutines, the tariff fields hold these sentinels and the colors are
    those that the color path alone gives. *)
Theorem tarif_failure_frame
    {DecTempo : Unmarshal TempoResponse} {DecNow : Unmarshal NowResponse}
    (r : Refresh) (w : World) (e : error) :
  (fetch (T := NowResponse) nowURL (now r) w).1 = Err e ->
  (let d := currentData (updateCurrentTarif r w) in
   CurrentTarif d = 0%float /\ TarifLib d = "Erreur" /\
   TodayColor d = TodayColor (currentData w) /\
   TomorrowColor d = TomorrowColor (currentData w)) /\
  (forall colorsFirst,
     let d := currentData (updateData colorsFirst r w) in
     CurrentTarif d = 0%float /\ TarifLib d = "Erreur" /\
     TodayColor d = TodayColor (currentData (updateColors r w)) /\
     TomorrowColor d = TomorrowColor (currentData (updateColors r w))).
Proof.
  intros F. cbn zeta. split.
  - by rewrite (updateCurrentTarif_error r w e F).
  - intros colorsFirst.
    destruct (updateData_fields colorsFirst r w) as (Ft & Fm & Fc & Fl & _).
    rewrite Ft, Fm, Fc, Fl.
    by rewrite (updateCurrentTarif_error r w e F).
Qed.

Lemma tarif_failure_frame_witness :
  let d := currentData
    (updateData (DecTempo := Sample.unmarshalTempo) (DecNow := Sample.unmarshalNow)
       false Sample.tarifDown Sample.staleWorld) in
  CurrentTarif d = 0%float /\ TarifLib d = "Erreur" /\
  TodayColor d = "ROUGE" /\ TomorrowColor d = "BLEU".
Proof.
  assert (F : (fetch (Dec := Sample.unmarshalNow) nowURL (now Sample.tarifDown)
                 Sample.staleWorld).1 = Err TransportError)
    by (vm_compute; reflexivity).
  exact (proj2 (tarif_failure_frame (DecTempo := Sample.unmarshalTempo)
                  (DecNow := Sample.unmarshalNow)
                  Sample.tarifDown Sample.staleWorld TransportError F) false).
Defined.

(** C9: from an empty cache, when the server answers the today query
    with status 200 and the body [{"codeJour":3}] (which the decoder reads
    as code 3), then after the refresh, in either order of the goroutines,
    the today color is red and the cache holds exactly that body for the
    today URL, valid until the clock reading at the write plus the
    configured TTL. *)
Theorem red_today_from_empty_cache
    {DecTempo : Unmarshal TempoResponse} {DecNow : Unmarshal NowResponse}
    (colorsFirst : bool) (r : Refresh) (w : World) (resp : TempoResponse) :
  cache w = ∅ ->
  reply (today r) = Response 200 (Some Sample.codeJour3) ->
  unmarshal Sample.codeJour3 = Some resp ->
  CodeJour resp = 3 ->
  let w' := updateData colorsFirst r w in
  TodayColor (currentData w') = colorName Red /\
  cache w' !! todayURL
    = Some (mkCacheEntry Sample.codeJour3
              (Add (storeTime (today r)) (CacheTTL config))).
Proof.
  intros E R U C. cbn zeta.
  destruct (updateData_fields colorsFirst r w) as (Ft & _ & _ & _ & _ & Fc & _).
  rewrite Ft, Fc.
  assert (G : cacheGet (lookupTime (today r)) todayURL (cache w) = None)
    by (unfold cacheGet; by rewrite E, lookup_empty).
  pose proof (fetch_miss_ok todayURL (today r) w Sample.codeJour3 resp G R U) as F.
  destruct (updateColors_today_ok r w resp) as (K1 & _ & K3 & _);
    [by rewrite F|].
  rewrite K1, K3, F, C. split; [reflexivity|].
  cbn [snd cache]. unfold cachePut. apply lookup_insert_eq.
Qed.

Lemma red_today_from_empty_cache_witness :
  let w' := updateData (DecTempo := Sample.unmarshalTempo) (DecNow := Sample.unmarshalNow)
              true Sample.onlyToday Sample.emptyWorld in
  TodayColor (currentData w') = "ROUGE" /\
  cache w' !! todayURL
    = Some (mkCacheEntry Sample.codeJour3 (Add Sample.afterNoon (30 * Minute))).
Proof.
  exact (red_today_from_empty_cache (DecTempo := Sample.unmarshalTempo)
           (DecNow := Sample.unmarshalNow)
           true Sample.onlyToday Sample.emptyWorld (mkTempoResponse "" 3 "")
           eq_refl eq_refl eq_refl eq_refl).
Defined.

(** ** The icon *)

(** [mustAsset] only returns icons that are not empty. *)
Lemma mustAsset_nonempty (p : Platform) (relPath : string) (icon : list byte) :
  mustAsset p relPath = Some icon -> 0 < len icon.
Proof.
  unfold mustAsset. destruct (ReadFile p _) as [content|]; [|discriminate].
  destruct (Z.eqb_spec (len content) 0) as [|Hne]; [discriminate|].
  intros [= <-]. unfold len in *. lia.
Qed.

(** When [init] does not panic, the three icons are not empty. *)
Lemma init_nonempty (p : Platform) (ic : Icons) :
  init p = Some ic ->
  0 < len (icnBlanc ic) /\ 0 < len (icnRouge ic) /\ 0 < len (icnBleu ic).
Proof.
  unfold init.
  destruct (GOOS p =? "windows")%string;
    repeat (match goal with
            | |- context [mustAsset p ?rel] =>
                let E := fresh "E" in
                destruct (mustAsset p rel) eqn:E; [apply mustAsset_nonempty in E|discriminate]
            end);
    intros [= <-]; cbn; auto.
Qed.

(** C5: the icon that [updateIconBasedOnColor] sets is a function of the
    color alone, defined on each of the five colors: on whatever machine
    and whatever the files hold, blue gives the blue icon, white the white
    one, red the red one, and both the unknown color and the error color
    give the white icon.  The icons are those loaded by an [init] that did
    not panic. *)
Theorem indicator_of_color (p0 p : Platform) (ic : Icons) (c : Color) (d : Data) :
  init p0 = Some ic ->
  TodayColor d = colorName c ->
  let indicator :=
    match c with
    | Blue => icnBleu ic
    | White => icnBlanc ic
    | Red => icnRouge ic
    | Unknown | Error => icnBlanc ic
    end in
  loadIcon p ic (colorName c) = indicator /\
  updateIconBasedOnColor p ic d = indicator /\
  0 < len indicator.
Proof.
  intros Hinit Hc. cbn zeta.
  destruct (init_nonempty p0 ic Hinit) as (Hw & Hr & Hb).
  unfold updateIconBasedOnColor. rewrite Hc.
  assert (L : loadIcon p ic (colorName c)
              = match c with
                | Blue => icnBleu ic
                | White => icnBlanc ic
                | Red => icnRouge ic
                | Unknown | Error => icnBlanc ic
                end)
    by (destruct c; reflexivity).
  rewrite L. split; [reflexivity|].
  destruct c; (split; [|assumption]);
    match goal with
    | |- (if 0 <? ?n then _ else _) = _ =>
        destruct (Z.ltb_spec 0 n); [reflexivity|lia]
    end.
Qed.

Lemma indicator_of_color_witness :
  updateIconBasedOnColor Sample.windows Sample.icons
    (mkData 0%float "" "ERREUR" "" zeroTime) = Sample.bytes "white".
Proof.
  exact (proj1 (proj2 (indicator_of_color Sample.windows Sample.windows Sample.icons
                         Error (mkData 0%float "" "ERREUR" "" zeroTime)
                         eq_refl eq_refl))).
Defined.

(** ** The midnight scheduler *)

(** The wait is positive and at most a day. *)
Lemma midnightWait_bounds (now : Time) : 0 < midnightWait now <= 24 * Hour.
Proof.
  rewrite midnightWait_eq. unfold NanosecondOf, secondsPerDay, Hour, Minute, Second.
  pose proof (Z.mod_pos_bound (localSeconds now) 86400 ltac:(lia)).
  pose proof (Z.mod_pos_bound (instant now) 1000000000 ltac:(lia)).
  lia.
Qed.

(** [Sub] returns the difference itself when it fits a [Duration]. *)
Lemma Sub_exact (t u : Time) :
  minDuration <= instant t - instant u <= maxDuration ->
  Sub t u = instant t - instant u.
Proof.
  intros [H1 H2]. unfold Sub.
  apply Z.ltb_ge in H1, H2. by rewrite H1, H2.
Qed.

(** From [now] to the next midnight: what is left of the local day. *)
Lemma nextMidnight_distance (now : Time) :
  instant (nextMidnight now) - instant now
  = (secondsPerDay - localSeconds now mod secondsPerDay) * Second - NanosecondOf now.
Proof.
  destruct (nextMidnight_instant now) as [-> _].
  unfold localDay, NanosecondOf, localSeconds, secondsPerDay, Second.
  Z.to_euclidean_division_equations; lia.
Qed.

(** The difference of the two instants is not cut by [Sub]. *)
Lemma midnightWait_exact (now : Time) :
  midnightWait now = instant (nextMidnight now) - instant now.
Proof.
  unfold midnightWait. apply Sub_exact. rewrite nextMidnight_distance.
  unfold NanosecondOf, secondsPerDay, minDuration, maxDuration, Second.
  pose proof (Z.mod_pos_bound (localSeconds now) 86400 ltac:(lia)).
  pose proof (Z.mod_pos_bound (instant now) 1000000000 ltac:(lia)).
  lia.
Qed.

(** Every turn of the loop sleeps for the wait computed from its own
    clock reading. *)
Lemma scheduler_sleeps
    {DecTempo : Unmarshal TempoResponse} {DecNow : Unmarshal NowResponse}
    (p : Platform) (ic : Icons) (cycles : list Cycle) : forall w,
  sleeps (scheduleMidnightNotification p ic cycles w).1
  = map (fun cy => midnightWait (wakeTime cy)) cycles.
Proof.
  induction cycles as [|cy cycles IH]; intros w; [reflexivity|].
  cbn [scheduleMidnightNotification map]. unfold midnightCycle.
  specialize (IH (updateData (colorsFirst cy) (refresh cy) w)).
  destruct (scheduleMidnightNotification p ic cycles _) as [rest w'].
  cbn in *. by rewrite IH.
Qed.

(** C6: in every turn of the scheduler the wait is computed anew from the
    clock reading of that turn, as the time from that reading to the start
    of the next local day; at 23:59:59 sharp it is one second, and at
    midnight sharp it is 24 hours.  Locations are fixed offsets, so no
    change of daylight saving time falls in the day. *)
Theorem midnight_wait_recomputed
    {DecTempo : Unmarshal TempoResponse} {DecNow : Unmarshal NowResponse}
    (p : Platform) (ic : Icons) (cycles : list Cycle) (w : World) (now : Time) :
  sleeps (scheduleMidnightNotification p ic cycles w).1
    = map (fun cy => midnightWait (wakeTime cy)) cycles /\
  midnightWait now = instant (nextMidnight now) - instant now /\
  localSeconds (nextMidnight now) = (localDay now + 1) * secondsPerDay /\
  Clock (nextMidnight now) = (0, 0, 0) /\
  NanosecondOf (nextMidnight now) = 0 /\
  (Clock now = (23, 59, 59) -> NanosecondOf now = 0 -> midnightWait now = 1 * Second) /\
  (Clock now = (0, 0, 0) -> NanosecondOf now = 0 -> midnightWait now = 24 * Hour).
Proof.
  split; [apply scheduler_sleeps|].
  split; [apply midnightWait_exact|].
  destruct (nextMidnight_instant now) as [Hi Ho].
  assert (Hl : localSeconds (nextMidnight now) = (localDay now + 1) * secondsPerDay).
  { unfold localSeconds. rewrite Hi, Ho, Z.div_mul by (unfold Second; lia). lia. }
  split; [exact Hl|].
  split.
  { unfold Clock. rewrite Hl, Z.mod_mul by (unfold secondsPerDay; lia). reflexivity. }
  split.
  { unfold NanosecondOf. rewrite Hi. apply Z.mod_mul. unfold Second. lia. }
  rewrite midnightWait_eq. unfold Clock, secondsPerDay, Hour, Minute, Second.
  pose proof (Z.mod_pos_bound (localSeconds now) 86400 ltac:(lia)) as B.
  set (s := localSeconds now mod 86400) in *.
  split; intros [= H1 H2 H3] ->.
  - assert (s = 86399) by (Z.to_euclidean_division_equations; lia). lia.
  - assert (s = 0) by (Z.to_euclidean_division_equations; lia). lia.
Qed.

Lemma midnight_wait_recomputed_witness :
  midnightWait (Date 2026 10 31 23 59 59 0 3600) = 1 * Second /\
  midnightWait (Date 2026 11 1 0 0 0 0 3600) = 24 * Hour.
Proof.
  split.
  - refine (proj1 (proj2 (proj2 (proj2 (proj2 (proj2
              (midnight_wait_recomputed (DecTempo := Sample.unmarshalTempo)
                 (DecNow := Sample.unmarshalNow)
                 Sample.windows Sample.icons [] Sample.emptyWorld
                 (Date 2026 10 31 23 59 59 0 3600))))))) _ _);
      vm_compute; reflexivity.
  - refine (proj2 (proj2 (proj2 (proj2 (proj2 (proj2
              (midnight_wait_recomputed (DecTempo := Sample.unmarshalTempo)
                 (DecNow := Sample.unmarshalNow)
                 Sample.windows Sample.icons [] Sample.emptyWorld
                 (Date 2026 11 1 0 0 0 0 3600))))))) _ _);
      vm_compute; reflexivity.
Defined.

(** * Further properties of the code *)

(** ** The cache over the life of the program *)

Section CacheFacts.
Context {T : Type} {Dec : Unmarshal T}.
Implicit Types (url u : string) (x : Exchange) (w : World).

(** An entry found after a fetch was there before, or is the one the
    fetch wrote: under its URL, with a body that decodes. *)
Lemma fetch_entry url x w u e :
  cache (fetch (T := T) url x w).2 !! u = Some e ->
  cache w !! u = Some e \/
  u = url /\ is_Some (unmarshal (T := T) (data e)) /\
  expires e = Add (storeTime x) (CacheTTL config).
Proof.
  destruct (fetch_cache (T := T) url x w) as [-> | (body & result & _ & _ & U & _ & ->)];
    [auto|].
  unfold cachePut. destruct (decide (url = u)) as [->|Hne].
  - rewrite lookup_insert_eq. intros [= <-]. right. cbn. rewrite U. eauto.
  - rewrite lookup_insert_ne by done. auto.
Qed.

(** A fetch never removes an entry. *)
Lemma fetch_keeps url x w u :
  is_Some (cache w !! u) -> is_Some (cache (fetch (T := T) url x w).2 !! u).
Proof.
  intros H.
  destruct (fetch_cache (T := T) url x w) as [-> | (body & result & _ & _ & _ & _ & ->)];
    [done|].
  unfold cachePut. destruct (decide (url = u)) as [->|Hne].
  - rewrite lookup_insert_eq. eauto.
  - by rewrite lookup_insert_ne.
Qed.

End CacheFacts.

Section LifeFacts.
Context {DecTempo : Unmarshal TempoResponse} {DecNow : Unmarshal NowResponse}.
Implicit Types (r : Refresh) (w : World) (u : string) (b : Body).

Lemma updateCurrentTarif_cache r w :
  cache (updateCurrentTarif r w) = cache (fetch (T := NowResponse) nowURL (now r) w).2.
Proof.
  rewrite updateCurrentTarif_unfold. cbn zeta.
  by destruct (fetch nowURL (now r) w).1.
Qed.

(** The entries after the color path: those from before, and what its
    fetches wrote under their two URLs. *)
Lemma updateColors_entry r w u e :
  cache (updateColors r w) !! u = Some e ->
  cache w !! u = Some e \/
  (u = todayURL \/ u = tomorrowURL) /\
  is_Some (unmarshal (T := TempoResponse) (data e)).
Proof.
  rewrite updateColors_unfold. cbn zeta.
  pose proof (fetch_entry (T := TempoResponse) todayURL (today r) w u) as E1.
  destruct (fetch todayURL (today r) w) as [[t|err] w1]; cbn [fst snd] in *.
  2:{ cbn. intros H. destruct (E1 e H) as [|(-> & ? & _)]; auto. }
  set (w2 := withData _ w1).
  pose proof (fetch_entry (T := TempoResponse) tomorrowURL (tomorrow r) w2 u) as E2.
  assert (C : cache w2 = cache w1) by reflexivity.
  intros H.
  assert (H' : cache (fetch (T := TempoResponse) tomorrowURL (tomorrow r) w2).2 !! u = Some e)
    by (destruct (fetch tomorrowURL (tomorrow r) w2) as [[t'|err'] w3]; exact H).
  destruct (E2 e H') as [H2|(-> & ? & _)]; [|auto].
  rewrite C in H2. destruct (E1 e H2) as [|(-> & ? & _)]; auto.
Qed.

Lemma updateColors_keeps r w u :
  is_Some (cache w !! u) -> is_Some (cache (updateColors r w) !! u).
Proof.
  intros H. rewrite updateColors_unfold. cbn zeta.
  apply (fetch_keeps (T := TempoResponse) todayURL (today r)) in H.
  destruct (fetch todayURL (today r) w) as [[t|err] w1]; cbn [fst snd] in *; [|done].
  set (w2 := withData _ w1).
  assert (H2 : is_Some (cache w2 !! u)) by done.
  apply (fetch_keeps (T := TempoResponse) tomorrowURL (tomorrow r)) in H2.
  by destruct (fetch tomorrowURL (tomorrow r) w2) as [[t'|err'] w3].
Qed.

(** One body keeps the cache well typed, within the three URLs, and
    never drops an entry. *)
Lemma runBody_cache b w :
  (wellTyped (cache w) -> wellTyped (cache (runBody b w))) /\
  (dom (cache w) ⊆ apiURLs -> dom (cache (runBody b w)) ⊆ apiURLs) /\
  dom (cache w) ⊆ dom (cache (runBody b w)).
Proof.
  destruct urls_distinct as (N12 & N13 & N23).
  destruct b as [r|r]; cbn [runBody].
  - split; [|split].
    + intros (H1 & H2 & H3). repeat split; intros e He;
        destruct (updateColors_entry r w _ e He) as [|[[?|?] ?]]; auto; congruence.
    + intros H u Hu. apply elem_of_dom in Hu as [e He].
      destruct (updateColors_entry r w _ e He) as [Hw|[[->| ->] _]].
      * apply H. apply elem_of_dom. eauto.
      * unfold apiURLs. set_solver.
      * unfold apiURLs. set_solver.
    + intros u Hu. apply elem_of_dom. apply updateColors_keeps.
      by apply elem_of_dom.
  - rewrite updateCurrentTarif_cache. split; [|split].
    + intros (H1 & H2 & H3). repeat split; intros e He;
        destruct (fetch_entry (T := NowResponse) nowURL (now r) w _ e He)
          as [|(? & ? & _)]; auto; congruence.
    + intros H u Hu. apply elem_of_dom in Hu as [e He].
      destruct (fetch_entry (T := NowResponse) nowURL (now r) w _ e He)
        as [Hw|(-> & _)].
      * apply H. apply elem_of_dom. eauto.
      * unfold apiURLs. set_solver.
    + intros u Hu. apply elem_of_dom. apply fetch_keeps. by apply elem_of_dom.
Qed.

End LifeFacts.

Section LifeInvariants.
Context {DecTempo : Unmarshal TempoResponse} {DecNow : Unmarshal NowResponse}.
Implicit Types (r : Refresh) (w : World) (bs : list Body).

Lemma runBodies_cache bs : forall w,
  (wellTyped (cache w) -> wellTyped (cache (runBodies bs w))) /\
  (dom (cache w) ⊆ apiURLs -> dom (cache (runBodies bs w)) ⊆ apiURLs) /\
  dom (cache w) ⊆ dom (cache (runBodies bs w)).
Proof.
  induction bs as [|b bs IH]; intros w; cbn [runBodies]; [done|].
  destruct (runBody_cache b w) as (T1 & D1 & K1).
  destruct (IH (runBody b w)) as (T2 & D2 & K2).
  split; [auto|]. split; [auto|]. intros u Hu. apply K2, K1, Hu.
Qed.

Lemma runBodies_app bs bs' w :
  runBodies (bs ++ bs') w = runBodies bs' (runBodies bs w).
Proof. revert w. induction bs as [|b bs IH]; intros w; cbn; [done|apply IH]. Qed.

Lemma wellTyped_start : wellTyped (cache startWorld).
Proof. repeat split; intros e; cbn; by rewrite lookup_empty. Qed.

(** A hit on a well-typed cache is answered, without touching the
    world. *)
Lemma fetch_hit_ok {T : Type} {Dec : Unmarshal T} (url : string) (x : Exchange) w body :
  (forall e, cache w !! url = Some e -> is_Some (unmarshal (T := T) (data e))) ->
  cacheGet (lookupTime x) url (cache w) = Some body ->
  exists result, unmarshal (T := T) body = Some result /\
                 fetch (T := T) url x w = (Ok result, w).
Proof.
  intros H G. unfold fetch. rewrite G.
  unfold cacheGet in G. destruct (cache w !! url) as [e|] eqn:E; [|discriminate].
  destruct (Before _ _); [|discriminate]. injection G as <-.
  destruct (H e eq_refl) as [result U]. rewrite U. eauto.
Qed.

End LifeInvariants.

(** X1: in every state that the program reaches from its start, through
    any sequence of update bodies, the cache is well typed, so a fetch of
    one of the three URLs that hits the cache always succeeds and changes
    nothing: the branch of [fetch] that reports a cached body that does
    not decode is never taken. *)
Theorem reachable_hit_never_fails
    {DecTempo : Unmarshal TempoResponse} {DecNow : Unmarshal NowResponse}
    (bs : list Body) (x : Exchange) (body : list byte) :
  let w := runBodies bs startWorld in
  (cacheGet (lookupTime x) todayURL (cache w) = Some body ->
   exists t, unmarshal body = Some t /\
             fetch (T := TempoResponse) todayURL x w = (Ok t, w)) /\
  (cacheGet (lookupTime x) tomorrowURL (cache w) = Some body ->
   exists t, unmarshal body = Some t /\
             fetch (T := TempoResponse) tomorrowURL x w = (Ok t, w)) /\
  (cacheGet (lookupTime x) nowURL (cache w) = Some body ->
   exists n, unmarshal body = Some n /\
             fetch (T := NowResponse) nowURL x w = (Ok n, w)).
Proof.
  cbn zeta.
  destruct (runBodies_cache bs startWorld) as (HT & _ & _).
  destruct (HT wellTyped_start) as (H1 & H2 & H3).
  repeat split; intros G; eapply fetch_hit_ok; eauto.
Qed.

Lemma reachable_hit_never_fails_witness :
  let w := runBodies (DecTempo := Sample.unmarshalTempo) (DecNow := Sample.unmarshalNow)
             [ColorsBody Sample.allUp] startWorld in
  exists t, Sample.unmarshalTempo Sample.codeJour3 = Some t /\
            fetch (Dec := Sample.unmarshalTempo) todayURL Sample.down w = (Ok t, w).
Proof.
  refine (proj1 (reachable_hit_never_fails (DecTempo := Sample.unmarshalTempo)
                   (DecNow := Sample.unmarshalNow)
                   [ColorsBody Sample.allUp] Sample.down Sample.codeJour3) _).
  vm_compute. reflexivity.
Defined.

(** X2: the cache never holds anything but entries for the three URLs
    of the API, at most three of them, and no entry is ever removed: an
    URL cached at some point of the life of the program stays cached,
    expired or not, whatever runs afterwards. *)
Theorem cache_bounded_never_evicts
    {DecTempo : Unmarshal TempoResponse} {DecNow : Unmarshal NowResponse}
    (bs bs' : list Body) :
  let c := cache (runBodies bs startWorld) in
  dom c ⊆ apiURLs /\
  (size c <= 3)%nat /\
  dom c ⊆ dom (cache (runBodies (bs ++ bs') startWorld)).
Proof.
  cbn zeta.
  destruct (runBodies_cache bs startWorld) as (_ & HD & _).
  assert (D : dom (cache (runBodies bs startWorld)) ⊆ apiURLs).
  { apply HD. cbn. by rewrite dom_empty_L. }
  split; [exact D|]. split.
  - rewrite <- size_dom. apply subseteq_size in D.
    assert (S3 : (size apiURLs <= 3)%nat).
    { unfold apiURLs. rewrite !size_union_alt, !size_singleton.
      pose proof (subseteq_size ({[tomorrowURL]} ∖ ({[todayURL]} : gset string))
                    {[tomorrowURL]} ltac:(set_solver)) as A.
      pose proof (subseteq_size
                    ({[nowURL]} ∖ ({[todayURL]} ∪ {[tomorrowURL]} : gset string))
                    {[nowURL]} ltac:(set_solver)) as B.
      rewrite size_singleton in A, B. lia. }
    lia.
  - rewrite runBodies_app.
    apply (runBodies_cache bs' (runBodies bs startWorld)).
Qed.

(** ** The data over the life of the program *)

Lemma codeToColor_named (code : Z) :
  codeToColor code = colorName Blue \/ codeToColor code = colorName White \/
  codeToColor code = colorName Red \/ codeToColor code = colorName Unknown.
Proof. unfold codeToColor. repeat case_match; auto. Qed.

Lemma codeToColor_isColorName (code : Z) : isColorName (codeToColor code).
Proof.
  destruct (codeToColor_named code) as [H|[H|[H|H]]]; rewrite H; by eexists.
Qed.

Section DataFacts.
Context {DecTempo : Unmarshal TempoResponse} {DecNow : Unmarshal NowResponse}.
Implicit Types (r : Refresh) (w : World) (bs : list Body) (b : Body).

(** After the color path the today field is a color name; the tomorrow
    field is a color name or what it was. *)
Lemma updateColors_colors r w :
  isColorName (TodayColor (currentData (updateColors r w))) /\
  (TomorrowColor (currentData (updateColors r w)) = TomorrowColor (currentData w) \/
   isColorName (TomorrowColor (currentData (updateColors r w)))).
Proof.
  destruct (fetch (T := TempoResponse) todayURL (today r) w).1 as [t|e] eqn:F.
  - destruct (updateColors_today_ok r w t F) as (H1 & H2 & _).
    rewrite H1, H2. split; [apply codeToColor_isColorName|]. right.
    destruct (fetch tomorrowURL (tomorrow r) _).1;
      [apply codeToColor_isColorName | by exists Error].
  - rewrite (updateColors_today_error r w e F). cbn.
    split; [by exists Error|]. by left.
Qed.

(** What one body keeps of the data. *)
Lemma runBody_data b w :
  let d := currentData w in
  let d' := currentData (runBody b w) in
  (isColorName (TodayColor d) -> isColorName (TodayColor d')) /\
  (TodayColor d = "" \/ isColorName (TodayColor d) ->
   TodayColor d' = "" \/ isColorName (TodayColor d')) /\
  (TomorrowColor d = "" \/ isColorName (TomorrowColor d) ->
   TomorrowColor d' = "" \/ isColorName (TomorrowColor d')) /\
  LastUpdated d' = LastUpdated d.
Proof.
  cbn zeta. destruct b as [r|r]; cbn [runBody].
  - destruct (updateColors_colors r w) as [H1 [H2|H2]];
      destruct (updateColors_frame r w) as (_ & _ & L & _);
      rewrite ?H2; repeat split; auto.
  - destruct (updateCurrentTarif_frame r w) as (-> & -> & -> & _). auto.
Qed.

Lemma runBodies_data bs : forall w,
  let d := currentData w in
  let d' := currentData (runBodies bs w) in
  (isColorName (TodayColor d) -> isColorName (TodayColor d')) /\
  (TodayColor d = "" \/ isColorName (TodayColor d) ->
   TodayColor d' = "" \/ isColorName (TodayColor d')) /\
  (TomorrowColor d = "" \/ isColorName (TomorrowColor d) ->
   TomorrowColor d' = "" \/ isColorName (TomorrowColor d')) /\
  LastUpdated d' = LastUpdated d.
Proof.
  induction bs as [|b bs IH]; intros w; cbn [runBodies]; cbn zeta.
  { repeat split; auto. }
  destruct (runBody_data b w) as (A1 & A2 & A3 & A4).
  destruct (IH (runBody b w)) as (B1 & B2 & B3 & B4).
  cbn zeta in *. rewrite B4, A4. repeat split; auto.
Qed.

End DataFacts.

(** X3: at every point of the life of the program each of the two color
    fields of [currentData] is empty (its value at the start) or one of
    the five color names; once [updateColors] has run the today field is a
    color name for good; and [LastUpdated] is never written. *)
Theorem colors_always_named
    {DecTempo : Unmarshal TempoResponse} {DecNow : Unmarshal NowResponse}
    (bs bs' : list Body) (r : Refresh) :
  let d := currentData (runBodies bs startWorld) in
  (TodayColor d = "" \/ isColorName (TodayColor d)) /\
  (TomorrowColor d = "" \/ isColorName (TomorrowColor d)) /\
  LastUpdated d = zeroTime /\
  isColorName
    (TodayColor (currentData (runBodies (bs ++ ColorsBody r :: bs') startWorld))).
Proof.
  cbn zeta.
  destruct (runBodies_data bs startWorld) as (_ & A2 & A3 & A4).
  split; [apply A2; by left|]. split; [apply A3; by left|]. split; [exact A4|].
  rewrite runBodies_app. cbn [runBodies runBody].
  apply runBodies_data. apply updateColors_colors.
Qed.

(** ** The icons *)

(** The loop over the icon files returns a file of more than 100 bytes
    or the fallback. *)
Lemma firstIcon_spec (p : Platform) (iconPaths : list string) (fallback : list byte) :
  firstIcon p iconPaths fallback = fallback \/
  100 < len (firstIcon p iconPaths fallback).
Proof.
  induction iconPaths as [|relPath iconPaths IH]; cbn [firstIcon]; [by left|].
  destruct (ReadFile p _) as [content|]; [|exact IH].
  destruct (Z.ltb_spec 100 (len content)); [by right|exact IH].
Qed.

(** With icons that are not empty, [loadIcon] never returns an empty
    icon. *)
Lemma loadIcon_nonempty (p : Platform) (ic : Icons) (name : string) :
  0 < len (icnBlanc ic) -> 0 < len (icnRouge ic) -> 0 < len (icnBleu ic) ->
  0 < len (loadIcon p ic name).
Proof.
  intros Hw Hr Hb. unfold loadIcon.
  repeat case_match; try assumption;
    match goal with
    | |- 0 < len (firstIcon ?p ?l ?f) =>
        destruct (firstIcon_spec p l f) as [-> | ?]; [assumption|lia]
    end.
Qed.

(** X4: once [init] has loaded the icons, [updateIconBasedOnColor] never
    takes its fallback branch and never hands an empty icon to the tray,
    whatever text the today field holds (the empty text of the start and
    texts that are no color included) and whatever the files hold. *)
Theorem icon_fallback_never_taken (p0 p : Platform) (ic : Icons) (d : Data) :
  init p0 = Some ic ->
  updateIconBasedOnColor p ic d = loadIcon p ic (TodayColor d) /\
  0 < len (updateIconBasedOnColor p ic d).
Proof.
  intros Hinit. destruct (init_nonempty p0 ic Hinit) as (Hw & Hr & Hb).
  pose proof (loadIcon_nonempty p ic (TodayColor d) Hw Hr Hb) as L.
  unfold updateIconBasedOnColor.
  destruct (Z.ltb_spec 0 (len (loadIcon p ic (TodayColor d)))); [auto|lia].
Qed.

Lemma icon_fallback_never_taken_witness :
  updateIconBasedOnColor More.linux Sample.icons zeroData = Sample.bytes "white".
Proof.
  exact (proj1 (icon_fallback_never_taken Sample.windows More.linux Sample.icons
                  zeroData eq_refl)).
Defined.

(** X5: outside Windows [init] asks [mustAsset] for the empty relative
    path three times: it panics when the joined path does not read as a
    file, and when it does not panic the three icons are one and the same
    content, that of this path. *)
Theorem init_outside_windows (p : Platform) :
  (GOOS p =? "windows")%string = false ->
  (ReadFile p (Join p (appDir p) "") = None -> init p = None) /\
  (forall ic, init p = Some ic ->
     ReadFile p (Join p (appDir p) "") = Some (icnBlanc ic) /\
     icnRouge ic = icnBlanc ic /\ icnBleu ic = icnBlanc ic).
Proof.
  intros Hos. unfold init, mustAsset. rewrite Hos.
  split.
  - by intros ->.
  - intros ic. destruct (ReadFile p _) as [content|]; [|discriminate].
    destruct (len content =? 0); [discriminate|].
    by intros [= <-].
Qed.

Lemma init_outside_windows_witness : init More.linux = None.
Proof.
  exact (proj1 (init_outside_windows More.linux eq_refl) eq_refl).
Defined.

(** ** The two goroutines of a refresh *)

Section ScheduleFacts.
Context {DecTempo : Unmarshal TempoResponse} {DecNow : Unmarshal NowResponse}.
Implicit Types (r : Refresh) (w : World) (u : string).

(** A refresh leaves the entries of all other URLs alone. *)
Lemma updateData_cache_other (colorsFirst : bool) r w u :
  u ≠ todayURL -> u ≠ tomorrowURL -> u ≠ nowURL ->
  cache (updateData colorsFirst r w) !! u = cache w !! u.
Proof.
  intros N1 N2 N3. unfold updateData. destruct colorsFirst.
  - destruct (updateCurrentTarif_frame r (updateColors r w)) as (_ & _ & _ & ->); [|done].
    by apply updateColors_frame.
  - destruct (updateColors_frame r (updateCurrentTarif r w)) as (_ & _ & _ & ->);
      [|done|done].
    by apply updateCurrentTarif_frame.
Qed.

(** The two orders of the bodies end with the same cache and the same
    data. *)
Lemma updateData_orders_agree r w :
  cache (updateData true r w) = cache (updateData false r w) /\
  currentData (updateData true r w) = currentData (updateData false r w).
Proof.
  destruct (updateData_fields true r w) as (A1 & A2 & A3 & A4 & A5 & A6 & A7 & A8).
  destruct (updateData_fields false r w) as (B1 & B2 & B3 & B4 & B5 & B6 & B7 & B8).
  cbn zeta in *. split.
  - apply map_eq. intros u.
    destruct (decide (u = todayURL)) as [->|N1]; [congruence|].
    destruct (decide (u = tomorrowURL)) as [->|N2]; [congruence|].
    destruct (decide (u = nowURL)) as [->|N3]; [congruence|].
    by rewrite !updateData_cache_other.
  - destruct (currentData (updateData true r w)),
             (currentData (updateData false r w)).
    cbn in *. congruence.
Qed.

End ScheduleFacts.

(** X6: the outcome of a refresh does not depend on how its goroutines
    are scheduled: any two complete runs of [updateData] from the same
    world, meeting the same answers, end with the same cache and the same
    [currentData] (only the order of the requests on the wire can
    differ). *)
Theorem updateData_schedule_irrelevant
    {DecTempo : Unmarshal TempoResponse} {DecNow : Unmarshal NowResponse}
    (r : Refresh) (w : World) (s1 s2 : list Goroutine) (c1 c2 : Conf) :
  run r s1 (initial w) = Some c1 -> callerPC c1 = Returned ->
  run r s2 (initial w) = Some c2 -> callerPC c2 = Returned ->
  cache (world c1) = cache (world c2) /\
  currentData (world c1) = currentData (world c2).
Proof.
  intros R1 F1 R2 F2.
  destruct (run_Inv r w s1 _ _ (Inv_initial r w) R1) as [I1 _].
  destruct (run_Inv r w s2 _ _ (Inv_initial r w) R2) as [I2 _].
  destruct (Inv_returned r w c1 I1 F1) as (_ & _ & _ & _ & b1 & ->).
  destruct (Inv_returned r w c2 I2 F2) as (_ & _ & _ & _ & b2 & ->).
  destruct (updateData_orders_agree r w) as [C D].
  destruct b1, b2; split; congruence.
Qed.

Lemma updateData_schedule_irrelevant_witness :
  currentData (world (More.finishedUp false)) = currentData (world (More.finishedUp true)).
Proof.
  assert (R1 : run (DecTempo := Sample.unmarshalTempo) (DecNow := Sample.unmarshalNow)
                 Sample.allUp Sample.tarifThenColors (initial startWorld)
               = Some (More.finishedUp false)) by (vm_compute; reflexivity).
  assert (R2 : run (DecTempo := Sample.unmarshalTempo) (DecNow := Sample.unmarshalNow)
                 Sample.allUp More.colorsThenTarif (initial startWorld)
               = Some (More.finishedUp true)) by (vm_compute; reflexivity).
  exact (proj2 (updateData_schedule_irrelevant Sample.allUp startWorld
                  Sample.tarifThenColors More.colorsThenTarif
                  (More.finishedUp false) (More.finishedUp true)
                  R1 eq_refl R2 eq_refl)).
Defined.

(** X7: in every configuration that a run of [updateData] reaches, at
    most one of the two goroutines is between its [Lock] and its
    [Unlock], [dataMaj] is locked exactly then, a body only runs with the
    lock held, and the counter of the wait group stays between 0 and 2
    (so [wg.Done] never drives it below zero). *)
Theorem updateData_mutual_exclusion
    {DecTempo : Unmarshal TempoResponse} {DecNow : Unmarshal NowResponse}
    (r : Refresh) (w : World) (schedule : list Goroutine) (c : Conf) :
  run r schedule (initial w) = Some c ->
  holding (colorsPC c) && holding (tarifPC c) = false /\
  dataMaj c = holding (colorsPC c) || holding (tarifPC c) /\
  (colorsPC c = InBody \/ tarifPC c = InBody -> dataMaj c = true) /\
  0 <= wg c <= 2.
Proof.
  intros R.
  destruct (run_Inv r w schedule _ _ (Inv_initial r w) R) as [(Hs & Hn & Hl & _) _].
  destruct c as [m a b l n wd]. cbn in *. subst n l.
  destruct m, a, b; cbn in *; try discriminate;
    (split; [reflexivity|]); (split; [reflexivity|]);
    (split; [intros [?|?]; (reflexivity || discriminate) | lia]).
Qed.

Lemma updateData_mutual_exclusion_witness :
  holding (colorsPC More.tarifHolds) && holding (tarifPC More.tarifHolds) = false /\
  dataMaj More.tarifHolds = true.
Proof.
  assert (R : run (DecTempo := Sample.unmarshalTempo) (DecNow := Sample.unmarshalNow)
                Sample.allUp More.tarifInBody (initial startWorld)
              = Some More.tarifHolds) by (vm_compute; reflexivity).
  destruct (updateData_mutual_exclusion Sample.allUp startWorld More.tarifInBody
              More.tarifHolds R) as (H1 & H2 & _).
  split; [exact H1|exact H2].
Defined.

(** ** Refreshes and the cache *)

Section CachedRefresh.
Context {DecTempo : Unmarshal TempoResponse} {DecNow : Unmarshal NowResponse}.
Implicit Types (r : Refresh) (w : World).

(** A hit on a body that decodes is answered from the cache. *)
Lemma fetch_hit {T : Type} {Dec : Unmarshal T} (url : string) (x : Exchange) w body result :
  cacheGet (lookupTime x) url (cache w) = Some body ->
  unmarshal (T := T) body = Some result ->
  fetch (T := T) url x w = (Ok result, w).
Proof. intros G U. unfold fetch. by rewrite G, U. Qed.

(** When the cache answers all three queries, the refresh takes its
    three values from the cache and changes neither cache nor wire. *)
Lemma updateData_hits (colorsFirst : bool) r w bt bm bn t m n :
  cacheGet (lookupTime (today r)) todayURL (cache w) = Some bt ->
  unmarshal bt = Some t ->
  cacheGet (lookupTime (tomorrow r)) tomorrowURL (cache w) = Some bm ->
  unmarshal bm = Some m ->
  cacheGet (lookupTime (now r)) nowURL (cache w) = Some bn ->
  unmarshal bn = Some n ->
  updateData colorsFirst r w
  = withData (mkData (TarifKwh n) (LibTarif n)
                (codeToColor (CodeJour t)) (codeToColor (CodeJour m))
                (LastUpdated (currentData w))) w.
Proof.
  intros Gt Ut Gm Um Gn Un.
  assert (C : forall w', cache w' = cache w ->
              updateColors r w'
              = withData (setTomorrowColor (codeToColor (CodeJour m))
                            (setTodayColor (codeToColor (CodeJour t)) (currentData w'))) w').
  { intros w' E. unfold updateColors.
    rewrite (fetch_hit todayURL (today r) w' bt t) by (rewrite ?E; assumption).
    rewrite (fetch_hit tomorrowURL (tomorrow r) _ bm m)
      by (cbn [cache withData]; rewrite ?E; assumption).
    reflexivity. }
  assert (N : forall w', cache w' = cache w ->
              updateCurrentTarif r w'
              = withData (setTarif (TarifKwh n) (LibTarif n) (currentData w')) w').
  { intros w' E. unfold updateCurrentTarif.
    by rewrite (fetch_hit nowURL (now r) w' bn n) by (rewrite ?E; assumption). }
  unfold updateData. destruct colorsFirst.
  - rewrite (C w eq_refl), N by reflexivity. reflexivity.
  - rewrite (N w eq_refl), C by reflexivity. reflexivity.
Qed.

End CachedRefresh.

(** X8: a refresh does not go past the cache, the one at midnight
    included.  When the cache holds unexpired bodies that decode for all
    three URLs, a turn of the scheduler sends nothing over the wire,
    leaves the cache as it is, and shows and announces the cached colors
    and tariff, whatever the server would answer. *)
Theorem midnight_refresh_uses_cache
    {DecTempo : Unmarshal TempoResponse} {DecNow : Unmarshal NowResponse}
    (p : Platform) (ic : Icons) (cy : Cycle) (w : World)
    (bt bm bn : list byte) (t m : TempoResponse) (n : NowResponse) :
  let r := refresh cy in
  cacheGet (lookupTime (today r)) todayURL (cache w) = Some bt ->
  unmarshal bt = Some t ->
  cacheGet (lookupTime (tomorrow r)) tomorrowURL (cache w) = Some bm ->
  unmarshal bm = Some m ->
  cacheGet (lookupTime (now r)) nowURL (cache w) = Some bn ->
  unmarshal bn = Some n ->
  let d := mkData (TarifKwh n) (LibTarif n)
             (codeToColor (CodeJour t)) (codeToColor (CodeJour m))
             (LastUpdated (currentData w)) in
  updateData (colorsFirst cy) r w = withData d w /\
  midnightCycle p ic cy w
  = ([ Sleep (midnightWait (wakeTime cy));
       SetIcon (updateIconBasedOnColor p ic d);
       Notify (codeToColor (CodeJour t)) (TarifKwh n) ],
     withData d w).
Proof.
  cbn zeta. intros Gt Ut Gm Um Gn Un.
  pose proof (updateData_hits (colorsFirst cy) (refresh cy) w bt bm bn t m n
                Gt Ut Gm Um Gn Un) as E.
  split; [exact E|]. unfold midnightCycle. rewrite E. reflexivity.
Qed.

Lemma midnight_refresh_uses_cache_witness :
  wire (updateData (DecTempo := Sample.unmarshalTempo) (DecNow := Sample.unmarshalNow)
          (colorsFirst More.quietCycle) (refresh More.quietCycle) More.warmWorld)
  = wire More.warmWorld.
Proof.
  assert (E := proj1 (midnight_refresh_uses_cache
            (DecTempo := Sample.unmarshalTempo) (DecNow := Sample.unmarshalNow)
            Sample.windows Sample.icons More.quietCycle More.warmWorld
            Sample.codeJour3 Sample.codeJour1 Sample.tarifHP
            (mkTempoResponse "" 3 "") (mkTempoResponse "" 1 "")
            (mkNowResponse 0 0 0 0.25%float "HP")
            eq_refl eq_refl eq_refl eq_refl eq_refl eq_refl)).
  rewrite E. reflexivity.
Defined.

(** X9: once the validity of an entry has run out, [fetch] never answers
    from it: the query goes over the wire, a value returned is the one
    decoded from the body that the server sent, which then replaces the
    entry; and when the exchange fails the call fails, the old entry
    staying in the cache, unused. *)
Theorem expired_entry_never_served {T : Type} {Dec : Unmarshal T}
    (url : string) (x : Exchange) (w : World) (entry : cacheEntry) :
  cache w !! url = Some entry ->
  instant (expires entry) <= instant (lookupTime x) ->
  let f := fetch (T := T) url x w in
  wire f.2 = (wire w ++ [url])%list /\
  (forall err, f.1 = Err err -> cache f.2 = cache w) /\
  (forall result, f.1 = Ok result ->
     exists body,
       reply x = Response StatusOK (Some body) /\
       unmarshal body = Some result /\
       cache f.2 !! url
       = Some (mkCacheEntry body (Add (storeTime x) (CacheTTL config)))).
Proof.
  intros E Hexp. cbn zeta.
  assert (G : cacheGet (lookupTime x) url (cache w) = None).
  { unfold cacheGet, Before. rewrite E. apply Z.ltb_ge in Hexp. by rewrite Hexp. }
  split; [by rewrite fetch_wire, G|].
  unfold fetch. rewrite G.
  destruct (reply x) as [|status [body|]] eqn:R; cbn.
  - split; [auto|discriminate].
  - destruct (Z.eqb_spec status StatusOK) as [->|Hs]; cbn.
    + destruct (unmarshal body) as [result|] eqn:U; cbn.
      * split; [discriminate|]. intros result' [= <-]. exists body.
        repeat split; auto. unfold cachePut. apply lookup_insert_eq.
      * split; [auto|discriminate].
    + split; [auto|discriminate].
  - destruct (status =? StatusOK); cbn; (split; [auto|discriminate]).
Qed.

Lemma expired_entry_never_served_witness :
  wire (fetch (Dec := Sample.unmarshalTempo) todayURL More.lateBlue More.warmWorld).2
  = (wire More.warmWorld ++ [todayURL])%list.
Proof.
  refine (proj1 (expired_entry_never_served (Dec := Sample.unmarshalTempo)
                   todayURL More.lateBlue More.warmWorld
                   (mkCacheEntry Sample.codeJour3
                      (Add Sample.afterNoon (CacheTTL config))) _ _)).
  - vm_compute. reflexivity.
  - vm_compute. discriminate.
Defined.

(** ** What a refresh sends *)

Section WireFacts.
Context {DecTempo : Unmarshal TempoResponse} {DecNow : Unmarshal NowResponse}.
Implicit Types (r : Refresh) (w : World).

(** What one fetch adds to the wire: nothing, or its URL. *)
Lemma fetch_sends {T : Type} {Dec : Unmarshal T} (url : string) (x : Exchange) w :
  exists l, wire (fetch (T := T) url x w).2 = (wire w ++ l)%list /\
            (l = [] \/ l = [url]).
Proof.
  rewrite fetch_wire. destruct (cacheGet _ _ _).
  - exists []. by rewrite app_nil_r; auto.
  - exists [url]. auto.
Qed.

(** The color path sends the today query, then the tomorrow query, each
    at most once. *)
Lemma updateColors_sends r w :
  exists l, wire (updateColors r w) = (wire w ++ l)%list /\
            (l = [] \/ l = [todayURL] \/ l = [tomorrowURL] \/
             l = [todayURL; tomorrowURL]).
Proof.
  rewrite updateColors_unfold. cbn zeta.
  destruct (fetch_sends (T := TempoResponse) todayURL (today r) w) as (l1 & W1 & L1).
  destruct (fetch todayURL (today r) w) as [[t|e] w1]; cbn [fst snd] in *.
  2:{ exists l1. cbn. split; [exact W1|]. destruct L1; auto. }
  set (w2 := withData _ w1).
  destruct (fetch_sends (T := TempoResponse) tomorrowURL (tomorrow r) w2)
    as (l2 & W2 & L2).
  exists (l1 ++ l2)%list. split.
  - rewrite app_assoc, <- W1.
    by destruct (fetch tomorrowURL (tomorrow r) w2) as [[t'|e'] w3].
  - destruct L1 as [-> | ->], L2 as [-> | ->]; cbn; auto.
Qed.

Lemma updateCurrentTarif_sends r w :
  exists l, wire (updateCurrentTarif r w) = (wire w ++ l)%list /\
            (l = [] \/ l = [nowURL]).
Proof. rewrite updateCurrentTarif_wire. apply fetch_sends. Qed.

End WireFacts.

(** X10: a refresh sends at most three requests, only to the three URLs
    of the API and never twice to the same one; the requests sent before
    stay on the record. *)
Theorem refresh_sends_each_query_once
    {DecTempo : Unmarshal TempoResponse} {DecNow : Unmarshal NowResponse}
    (colorsFirst : bool) (r : Refresh) (w : World) :
  exists l,
    wire (updateData colorsFirst r w) = (wire w ++ l)%list /\
    NoDup l /\ (length l <= 3)%nat /\
    forall u, In u l -> u = todayURL \/ u = tomorrowURL \/ u = nowURL.
Proof.
  destruct urls_distinct as (N12 & N13 & N23).
  assert (K : forall lc lt,
            (lc = [] \/ lc = [todayURL] \/ lc = [tomorrowURL] \/
             lc = [todayURL; tomorrowURL]) ->
            (lt = [] \/ lt = [nowURL]) ->
            forall l, l = (lc ++ lt)%list \/ l = (lt ++ lc)%list ->
            NoDup l /\ (length l <= 3)%nat /\
            forall u, In u l -> u = todayURL \/ u = tomorrowURL \/ u = nowURL).
  { intros lc lt Hc Ht l Hl.
    destruct Hc as [-> |[-> |[-> | ->]]], Ht as [-> | ->], Hl as [-> | ->]; cbn;
      (split; [|split; [lia|intros u; cbn; intuition]]);
      repeat (apply NoDup_cons_2 || apply NoDup_nil_2);
      rewrite ?elem_of_cons, ?elem_of_nil; intuition congruence. }
  unfold updateData. destruct colorsFirst.
  - destruct (updateColors_sends r w) as (lc & Wc & Hc).
    destruct (updateCurrentTarif_sends r (updateColors r w)) as (lt & Wt & Ht).
    exists (lc ++ lt)%list. split; [by rewrite Wt, Wc, app_assoc|].
    apply (K lc lt); auto.
  - destruct (updateCurrentTarif_sends r w) as (lt & Wt & Ht).
    destruct (updateColors_sends r (updateCurrentTarif r w)) as (lc & Wc & Hc).
    exists (lt ++ lc)%list. split; [by rewrite Wc, Wt, app_assoc|].
    apply (K lc lt); auto.
Qed.

(** ** The scheduler over the days *)

Lemma Time_eq (t u : Time) :
  instant t = instant u -> zoneOffset t = zoneOffset u -> t = u.
Proof. destruct t, u. cbn. congruence. Qed.

(** The next midnight is a midnight of the local clock. *)
Lemma nextMidnight_local (now : Time) :
  localSeconds (nextMidnight now) mod secondsPerDay = 0 /\
  NanosecondOf (nextMidnight now) = 0.
Proof.
  destruct (nextMidnight_instant now) as [Hi Ho].
  unfold NanosecondOf, localSeconds. rewrite Hi, Ho. split.
  - rewrite Z.div_mul by (unfold Second; lia).
    replace ((localDay now + 1) * secondsPerDay - zoneOffset now + zoneOffset now)
      with ((localDay now + 1) * secondsPerDay) by lia.
    apply Z.mod_mul. unfold secondsPerDay. lia.
  - apply Z.mod_mul. unfold Second. lia.
Qed.

(** X11: the scheduler always sleeps for a positive time of at most 24
    hours; the sleep ends exactly at the next local midnight; and a turn
    that reads the clock exactly then sleeps for exactly 24 hours: turns
    that wake on time fire once a day, at midnight.  (Locations are fixed
    offsets.) *)
Theorem scheduler_fires_daily (now : Time) :
  0 < midnightWait now <= 24 * Hour /\
  Add now (midnightWait now) = nextMidnight now /\
  midnightWait (nextMidnight now) = 24 * Hour /\
  nextMidnight (nextMidnight now) = Add (nextMidnight now) (24 * Hour).
Proof.
  assert (D : forall t, midnightWait (nextMidnight t) = 24 * Hour).
  { intros t. rewrite midnightWait_eq.
    destruct (nextMidnight_local t) as [-> ->]. reflexivity. }
  assert (A : forall t, Add t (midnightWait t) = nextMidnight t).
  { intros t. apply Time_eq; unfold Add; cbn [instant zoneOffset].
    - rewrite midnightWait_exact. lia.
    - symmetry. apply nextMidnight_instant. }
  split; [apply midnightWait_bounds|]. split; [apply A|]. split; [apply D|].
  rewrite <- (A (nextMidnight now)), D. reflexivity.
Qed.

(** ** The icon over the life of the program *)

(** X12: once [init] has loaded the icons and [updateColors] has run,
    the today field is a color name and the icon that
    [updateIconBasedOnColor] sets is the loaded icon of that color, on
    whatever machine and whatever the files hold: after the first refresh
    the icon never comes from the icon files that [loadIcon] searches for
    other texts. *)
Theorem icon_after_refresh
    {DecTempo : Unmarshal TempoResponse} {DecNow : Unmarshal NowResponse}
    (p0 p : Platform) (ic : Icons) (bs bs' : list Body) (r : Refresh) :
  init p0 = Some ic ->
  let d := currentData (runBodies (bs ++ ColorsBody r :: bs') startWorld) in
  exists c,
    TodayColor d = colorName c /\
    updateIconBasedOnColor p ic d
    = match c with
      | Blue => icnBleu ic
      | Red => icnRouge ic
      | White | Unknown | Error => icnBlanc ic
      end.
Proof.
  intros Hinit. cbn zeta.
  destruct (init_nonempty p0 ic Hinit) as (Hw & Hr & Hb).
  set (d := currentData _).
  assert (N : isColorName (TodayColor d)).
  { subst d. rewrite runBodies_app. cbn [runBodies runBody].
    apply runBodies_data. apply updateColors_colors. }
  destruct N as [c Hc]. exists c. split; [exact Hc|].
  pose proof (loadIcon_nonempty p ic (TodayColor d) Hw Hr Hb) as L.
  unfold updateIconBasedOnColor.
  destruct (Z.ltb_spec 0 (len (loadIcon p ic (TodayColor d)))); [|lia].
  rewrite Hc. by destruct c.
Qed.

Lemma icon_after_refresh_witness :
  exists c,
    TodayColor (currentData
      (runBodies (DecTempo := Sample.unmarshalTempo) (DecNow := Sample.unmarshalNow)
         ([] ++ ColorsBody Sample.allDown :: []) startWorld)) = colorName c /\
    updateIconBasedOnColor More.linux Sample.icons
      (currentData
         (runBodies (DecTempo := Sample.unmarshalTempo) (DecNow := Sample.unmarshalNow)
            ([] ++ ColorsBody Sample.allDown :: []) startWorld))
    = match c with
      | Blue => icnBleu Sample.icons
      | Red => icnRouge Sample.icons
      | White | Unknown | Error => icnBlanc Sample.icons
      end.
Proof.
  exact (icon_after_refresh (DecTempo := Sample.unmarshalTempo)
           (DecNow := Sample.unmarshalNow)
           Sample.windows More.linux Sample.icons [] [] Sample.allDown eq_refl).
Defined.

(** ** A refresh after a refresh *)

Section Again.
Context {DecTempo : Unmarshal TempoResponse} {DecNow : Unmarshal NowResponse}.
Implicit Types (r : Refresh) (w : World).

(** The color path when both of its queries miss and are answered. *)
Lemma updateColors_all_ok r w bt bm t m :
  cacheGet (lookupTime (today r)) todayURL (cache w) = None ->
  reply (today r) = Response StatusOK (Some bt) ->
  unmarshal bt = Some t ->
  cacheGet (lookupTime (tomorrow r)) tomorrowURL (cache w) = None ->
  reply (tomorrow r) = Response StatusOK (Some bm) ->
  unmarshal bm = Some m ->
  TodayColor (currentData (updateColors r w)) = codeToColor (CodeJour t) /\
  TomorrowColor (currentData (updateColors r w)) = codeToColor (CodeJour m) /\
  cache (updateColors r w) !! todayURL
    = Some (mkCacheEntry bt (Add (storeTime (today r)) (CacheTTL config))) /\
  cache (updateColors r w) !! tomorrowURL
    = Some (mkCacheEntry bm (Add (storeTime (tomorrow r)) (CacheTTL config))).
Proof.
  intros Gt Rt Ut Gm Rm Um.
  destruct urls_distinct as (N12 & _ & _).
  unfold updateColors.
  rewrite (fetch_miss_ok todayURL (today r) w bt t Gt Rt Ut).
  rewrite (fetch_miss_ok tomorrowURL (tomorrow r) _ bm m); [| |exact Rm|exact Um].
  - cbn. unfold cachePut.
    rewrite lookup_insert_ne, !lookup_insert_eq by done. auto.
  - cbn. unfold cacheGet, cachePut in *. by rewrite lookup_insert_ne.
Qed.

(** The tariff path when its query misses and is answered. *)
Lemma updateCurrentTarif_miss_ok r w bn n :
  cacheGet (lookupTime (now r)) nowURL (cache w) = None ->
  reply (now r) = Response StatusOK (Some bn) ->
  unmarshal bn = Some n ->
  CurrentTarif (currentData (updateCurrentTarif r w)) = TarifKwh n /\
  TarifLib (currentData (updateCurrentTarif r w)) = LibTarif n /\
  cache (updateCurrentTarif r w) !! nowURL
    = Some (mkCacheEntry bn (Add (storeTime (now r)) (CacheTTL config))).
Proof.
  intros G R U. unfold updateCurrentTarif.
  rewrite (fetch_miss_ok nowURL (now r) w bn n G R U). cbn.
  unfold cachePut. by rewrite lookup_insert_eq.
Qed.

End Again.

(** X13: a refresh that follows a fully answered refresh within the
    validity of what that one cached changes nothing at all: it sends no
    request and leaves cache, data and wire as they are, whatever the
    server would answer now and in whatever order the goroutines run. *)
Theorem refresh_again_within_ttl
    {DecTempo : Unmarshal TempoResponse} {DecNow : Unmarshal NowResponse}
    (b1 b2 : bool) (r1 r2 : Refresh) (w : World)
    (bt bm bn : list byte) (t m : TempoResponse) (n : NowResponse) :
  cacheGet (lookupTime (today r1)) todayURL (cache w) = None ->
  reply (today r1) = Response StatusOK (Some bt) ->
  unmarshal bt = Some t ->
  cacheGet (lookupTime (tomorrow r1)) tomorrowURL (cache w) = None ->
  reply (tomorrow r1) = Response StatusOK (Some bm) ->
  unmarshal bm = Some m ->
  cacheGet (lookupTime (now r1)) nowURL (cache w) = None ->
  reply (now r1) = Response StatusOK (Some bn) ->
  unmarshal bn = Some n ->
  instant (lookupTime (today r2)) < instant (storeTime (today r1)) + CacheTTL config ->
  instant (lookupTime (tomorrow r2))
    < instant (storeTime (tomorrow r1)) + CacheTTL config ->
  instant (lookupTime (now r2)) < instant (storeTime (now r1)) + CacheTTL config ->
  updateData b2 r2 (updateData b1 r1 w) = updateData b1 r1 w.
Proof.
  intros Gt Rt Ut Gm Rm Um Gn Rn Un Ft Fm Fn.
  destruct (updateData_fields b1 r1 w) as (A1 & A2 & A3 & A4 & _ & A6 & A7 & A8).
  destruct (updateColors_all_ok r1 w bt bm t m Gt Rt Ut Gm Rm Um) as (C1 & C2 & C3 & C4).
  destruct (updateCurrentTarif_miss_ok r1 w bn n Gn Rn Un) as (T1 & T2 & T3).
  cbn zeta in *. set (w1 := updateData b1 r1 w) in *.
  rewrite (updateData_hits b2 r2 w1 bt bm bn t m n); auto.
  - destruct w1 as [c d wi]. destruct d. cbn in *.
    unfold withData. cbn. congruence.
  - eapply cacheGet_fresh; [|exact Ft]. congruence.
  - eapply cacheGet_fresh; [|exact Fm]. congruence.
  - eapply cacheGet_fresh; [|exact Fn]. congruence.
Qed.

Lemma refresh_again_within_ttl_witness :
  updateData (DecTempo := Sample.unmarshalTempo) (DecNow := Sample.unmarshalNow)
    false (refresh More.quietCycle) More.warmWorld = More.warmWorld.
Proof.
  refine (refresh_again_within_ttl (DecTempo := Sample.unmarshalTempo)
            (DecNow := Sample.unmarshalNow)
            true false Sample.allUp (refresh More.quietCycle) startWorld
            Sample.codeJour3 Sample.codeJour1 Sample.tarifHP
            (mkTempoResponse "" 3 "") (mkTempoResponse "" 1 "")
            (mkNowResponse 0 0 0 0.25%float "HP")
            eq_refl eq_refl eq_refl eq_refl eq_refl eq_refl eq_refl eq_refl eq_refl
            _ _ _);
    vm_compute; reflexivity.
Defined.

(** ** Start-up *)

(** X14: on Windows [init] returns exactly when each of the three icon
    files reads and is not empty, and the icons are then the contents of
    these files; in every other case it panics. *)
Theorem init_on_windows (p : Platform) (ic : Icons) :
  (GOOS p =? "windows")%string = true ->
  init p = Some ic <->
  (ReadFile p (Join p (appDir p) "assets/white.ico") = Some (icnBlanc ic) /\
   ReadFile p (Join p (appDir p) "assets/red.ico") = Some (icnRouge ic) /\
   ReadFile p (Join p (appDir p) "assets/blue.ico") = Some (icnBleu ic)) /\
  icnBlanc ic ≠ [] /\ icnRouge ic ≠ [] /\ icnBleu ic ≠ [].
Proof.
  intros Hos. unfold init, mustAsset. rewrite Hos.
  assert (E : forall l : list byte, (len l =? 0) = true <-> l = []).
  { intros l. rewrite Z.eqb_eq. unfold len. destruct l; cbn; split; (lia || discriminate || auto). }
  split.
  - destruct (ReadFile p (Join p (appDir p) "assets/white.ico")) as [a|]; [|discriminate].
    destruct (len a =? 0) eqn:Ea; [discriminate|].
    destruct (ReadFile p (Join p (appDir p) "assets/red.ico")) as [b|]; [|discriminate].
    destruct (len b =? 0) eqn:Eb; [discriminate|].
    destruct (ReadFile p (Join p (appDir p) "assets/blue.ico")) as [c|]; [|discriminate].
    destruct (len c =? 0) eqn:Ec; [discriminate|].
    intros [= <-]. cbn.
    repeat split; auto; intros H; apply E in H; congruence.
  - intros ((-> & -> & ->) & Na & Nb & Nc).
    destruct (len (icnBlanc ic) =? 0) eqn:Ea; [by apply E in Ea|].
    destruct (len (icnRouge ic) =? 0) eqn:Eb; [by apply E in Eb|].
    destruct (len (icnBleu ic) =? 0) eqn:Ec; [by apply E in Ec|].
    by destruct ic.
Qed.

Lemma init_on_windows_witness : init Sample.windows = Some Sample.icons.
Proof.
  apply (init_on_windows Sample.windows Sample.icons eq_refl).
  repeat split; discriminate.
Defined.

(** ** Frames *)

(** X15: a fetch of one URL touches nothing but the cache entry of that
    URL and the record of the wire: the data shown and the entries of
    all other URLs are as before, and the wire grows by this URL at
    most. *)
Theorem fetch_touches_only_its_entry {T : Type} {Dec : Unmarshal T}
    (url : string) (x : Exchange) (w : World) :
  let w' := (fetch (T := T) url x w).2 in
  currentData w' = currentData w /\
  (forall u, u ≠ url -> cache w' !! u = cache w !! u) /\
  (wire w' = wire w \/ wire w' = (wire w ++ [url])%list).
Proof.
  cbn zeta. split; [apply fetch_currentData|].
  split; [intros u Hu; by apply fetch_cache_ne|].
  rewrite fetch_wire. destruct (cacheGet _ _ _); auto.
Qed.

Lemma fetch_touches_only_its_entry_witness :
  cache (fetch (Dec := Sample.unmarshalTempo) todayURL More.lateBlue More.warmWorld).2
    !! nowURL
  = cache More.warmWorld !! nowURL.
Proof.
  apply (proj1 (proj2 (fetch_touches_only_its_entry (Dec := Sample.unmarshalTempo)
                         todayURL More.lateBlue More.warmWorld))).
  apply not_eq_sym, urls_distinct.
Defined.

(** X16: when the today fetch fails, the color path stops: in either
    order of the goroutines the refresh leaves the tomorrow field and the
    cache entry of the tomorrow URL as they were, and sends no tomorrow
    query. *)
Theorem today_failure_stops_color_path
    {DecTempo : Unmarshal TempoResponse} {DecNow : Unmarshal NowResponse}
    (colorsFirst : bool) (r : Refresh) (w : World) (e : error) :
  (fetch (T := TempoResponse) todayURL (today r) w).1 = Err e ->
  let w' := updateData colorsFirst r w in
  TodayColor (currentData w') = "ERREUR" /\
  TomorrowColor (currentData w') = TomorrowColor (currentData w) /\
  cache w' !! tomorrowURL = cache w !! tomorrowURL /\
  (~ In tomorrowURL (wire w) -> ~ In tomorrowURL (wire w')).
Proof.
  intros F. cbn zeta.
  destruct urls_distinct as (N12 & N13 & N23).
  destruct (updateData_fields colorsFirst r w) as (A1 & A2 & _ & _ & _ & _ & A7 & _).
  cbn zeta in *. rewrite A1, A2, A7.
  rewrite (updateColors_today_error r w e F). cbn.
  split; [reflexivity|]. split; [reflexivity|].
  split; [apply fetch_cache_ne, not_eq_sym, N12|].
  intros Hw Hin.
  assert (S : forall v, (fetch (T := TempoResponse) todayURL (today r) v).1 = Err e ->
              ~ In tomorrowURL (wire v) -> ~ In tomorrowURL (wire (updateColors r v))).
  { intros v Fv Hv. rewrite (updateColors_today_error r v e Fv). cbn.
    rewrite fetch_wire. destruct (cacheGet _ _ _); [done|].
    rewrite in_app_iff. cbn. intuition congruence. }
  assert (N : forall v, ~ In tomorrowURL (wire v) ->
              ~ In tomorrowURL (wire (updateCurrentTarif r v))).
  { intros v Hv. rewrite updateCurrentTarif_wire, fetch_wire.
    destruct (cacheGet _ _ _); [done|].
    rewrite in_app_iff. cbn. intuition congruence. }
  unfold updateData in Hin. destruct colorsFirst.
  - apply (N (updateColors r w)); [|exact Hin]. by apply S.
  - apply (S (updateCurrentTarif r w)); [| by apply N | exact Hin].
    destruct (fetch_local (T := TempoResponse) todayURL (today r)
                (updateCurrentTarif r w) w) as [R _]; [|congruence].
    by apply updateCurrentTarif_frame.
Qed.

Lemma today_failure_stops_color_path_witness :
  TomorrowColor (currentData
    (updateData (DecTempo := Sample.unmarshalTempo) (DecNow := Sample.unmarshalNow)
       false Sample.todayDown Sample.staleWorld)) = "BLANC".
Proof.
  refine (proj1 (proj2 (today_failure_stops_color_path
            (DecTempo := Sample.unmarshalTempo) (DecNow := Sample.unmarshalNow)
            false Sample.todayDown Sample.staleWorld TransportError _))).
  vm_compute. reflexivity.
Defined.
